(** * Cohesity execution module for Salt: a shallow embedding

    The module [saltext/cohesity/modules/cohesity_mod.py] exposes
    data-protection operations of a Cohesity cluster as Salt functions.
    Every operation talks to the cluster through the vendor SDK, so the
    embedding keeps the SDK calls as uninterpreted effects: a program is a
    finite tree of effects, a _world_ answers each effect, and running a
    program against a world yields its outcome (a returned value or a raised
    Python exception) together with the trace of effects and log records. *)

From stdpp Require Import gmap strings list.
From Stdlib Require Import ZArith Ascii.
From Stdlib Require String.

Local Open Scope Z_scope.
Set Warnings "-register-all".

(** ** Python values and exceptions *)

(** The exceptions the module can meet.  [APIException] is the only one the
    operations catch. *)
Inductive exn : Type :=
| APIException (msg : string)
| UnboundLocalError (var : string)
| IndexError (msg : string)
| ValueError (msg : string)
| AttributeError (msg : string)
| OtherError (msg : string).

(** [str(err)] *)
Definition str_exn (e : exn) : string :=
  match e with
  | APIException m | IndexError m | ValueError m | AttributeError m
  | OtherError m => m
  | UnboundLocalError v =>
      "local variable '" +:+ v +:+ "' referenced before assignment"
  end.

Inductive outcome (A : Type) : Type :=
| Returned (a : A)
| Raised (e : exn).
Arguments Returned {A} a.
Arguments Raised {A} e.

(** A local variable that the code assigns only on some paths. *)
Inductive local (A : Type) : Type :=
| Unbound
| Bound (a : A).
Arguments Unbound {A}.
Arguments Bound {A} a.

(** ** Objects of the SDK *)

(** Identity of a [CohesityClient] object. *)
Definition client := nat.

(** A registered root source: [registration_info.access_info.endpoint],
    [protection_source.name] and [protection_source.id]. *)
Record source_node := {
  src_endpoint : string;
  src_name : string;
  src_id : Z }.

Record virtual_machine := { vm_name : string; vm_id : Z }.

Record view_box := { vb_id : Z }.

Record protection_policy := { policy_id : Z }.

(** A protection job as the cluster returns it. *)
Record protection_job := {
  pj_id : Z;
  pj_name : string;
  pj_policy_id : option Z;
  pj_view_box_id : option Z;
  pj_parent_source_id : Z;
  pj_source_ids : list Z }.

(** [ProtectionJobRequestBody] as [create_vmware_protection_job] fills it. *)
Record protection_job_request_body := {
  body_name : string;
  body_description : string;
  body_policy_id : option Z;
  body_timezone : string;
  body_view_box_id : option Z;
  body_environment : string;
  body_pause : bool;
  body_parent_source_id : Z;
  body_source_ids : list Z }.

Record register_protection_source_parameters := {
  reg_endpoint : string;
  reg_environment : string;
  reg_username : string;
  reg_password : string;
  reg_vmware_type : string }.

Record update_protection_jobs_state_request_body := {
  st_action : string;
  st_job_ids : list Z }.

(** [run.backup_run.status] and [run.backup_run.job_run_id]. *)
Record protection_run := { run_status : string; run_job_run_id : Z }.

Record universal_id := {
  uid_cluster_id : option Z;
  uid_cluster_incarnation_id : option Z;
  uid_id : option Z }.

(** [UniversalId()] *)
Definition UniversalId : universal_id :=
  {| uid_cluster_id := None; uid_cluster_incarnation_id := None;
     uid_id := None |}.

Record snapshot_version := {
  started_time_usecs : Z;
  ver_job_run_id : Z }.

Record object_snapshot := {
  snap_job_id : Z;
  snap_job_uid : universal_id;
  versions : list snapshot_version }.

(** A node of the source tree, a JSON object with the keys
    ["protectionSource"] (its ["id"], ["name"] and
    ["vmWareProtectionSource"]["type"]) and ["nodes"]. *)
Inductive tree_node : Type :=
| TreeNode (node_id : Z) (node_name : string) (node_type : string)
           (nodes : list tree_node).

Definition node_id (n : tree_node) : Z :=
  match n with TreeNode i _ _ _ => i end.
Definition node_name (n : tree_node) : string :=
  match n with TreeNode _ s _ _ => s end.
Definition node_type (n : tree_node) : string :=
  match n with TreeNode _ _ t _ => t end.
Definition node_nodes (n : tree_node) : list tree_node :=
  match n with TreeNode _ _ _ l => l end.

(** An element of the answer of [list_protection_sources]; only [.nodes] is
    read. *)
Record source_object := { so_nodes : list tree_node }.

Record restore_object_details := {
  ro_environment : string;
  ro_job_id : Z;
  ro_job_run_id : Z;
  ro_uid : universal_id;
  ro_protection_source_id : Z;
  ro_sourceName : string;
  ro_started_time_usecs : Z }.

Record vmware_restore_parameters := {
  vp_powered_on : bool;
  vp_recovery_process_type : string;
  vp_prefix : string;
  vp_suffix : string }.

Record recover_task_request := {
  rt_name : string;
  rt_type : string;
  rt_objects : list restore_object_details;
  rt_vmware_parameters : vmware_restore_parameters }.

(** [env_enum.K_VMWARE] *)
Definition K_VMWARE : string := "kVMware".

(** ** Effects *)

(** The SDK methods the module calls, each with the keyword arguments the
    module passes. *)
Inductive request : Type :=
| get_view_boxes (names : string)
| get_protection_policies (names : string)
| list_protection_sources_root_nodes (environments environment : option string)
| list_virtual_machines (v_center_id : Z) (names : list string)
| create_register_protection_source (body : register_protection_source_parameters)
| get_protection_jobs (names : string) (is_deleted : bool)
| create_protection_job (body : protection_job_request_body)
| change_protection_job_state (id : Z) (pause : bool)
| update_protection_job (body : protection_job) (id : Z)
| update_protection_jobs_state (body : update_protection_jobs_state_request_body)
| get_protection_runs (job_id : Z)
| create_cancel_protection_job_run (id : Z) (job_run_id : Z)
| create_run_protection_job (id : Z)
| delete_protection_job (id : Z) (delete_snapshots : bool)
| list_protection_sources (id : Z) (include_datastores : bool)
    (exclude_types : list string) (environment : string)
| search_objects (search : string) (environments : string)
    (registered_source_ids : Z)
| create_recover_task (body : recover_task_request).

Definition response (r : request) : Type :=
  match r with
  | get_view_boxes _ => list view_box
  | get_protection_policies _ => list protection_policy
  | list_protection_sources_root_nodes _ _ => list source_node
  | list_virtual_machines _ _ => list virtual_machine
  | get_protection_jobs _ _ => list protection_job
  | create_protection_job _ => protection_job
  | get_protection_runs _ => list protection_run
  | list_protection_sources _ _ _ _ => list source_object
  | search_objects _ _ _ => list object_snapshot
  | create_register_protection_source _
  | change_protection_job_state _ _
  | update_protection_job _ _
  | update_protection_jobs_state _
  | create_cancel_protection_job_run _ _
  | create_run_protection_job _
  | delete_protection_job _ _
  | create_recover_task _ => unit
  end.

Inductive effect : Type :=
| master_config (path : string)
| CohesityClient (cluster_vip username password domain : string)
| sdk (cl : client) (r : request).

Definition answer (e : effect) : Type :=
  match e with
  | master_config _ => gmap string (gmap string string)
  | CohesityClient _ _ _ _ => client
  | sdk _ r => response r
  end.

Inductive level : Type := INFO | ERROR.

Inductive event : Type :=
| Did (e : effect)
| Logged (lvl : level) (msg : string).

(** ** Programs *)

Inductive prog (A : Type) : Type :=
| Ret (a : A)
| Raise (e : exn)
| Log (lvl : level) (msg : string) (k : prog A)
| Perform (e : effect) (k : outcome (answer e) -> prog A).
Arguments Ret {A} a.
Arguments Raise {A} e.
Arguments Log {A} lvl msg k.
Arguments Perform {A} e k.

Fixpoint bind {A B : Type} (p : prog A) (f : A -> prog B) : prog B :=
  match p with
  | Ret a => f a
  | Raise e => Raise e
  | Log l m k => Log l m (bind k f)
  | Perform e k => Perform e (fun o => bind (k o) f)
  end.

#[global] Instance prog_ret : MRet prog := @Ret.
#[global] Instance prog_bind : MBind prog := fun A B f p => bind p f.

(** [try: p except APIException as err: h err] *)
Fixpoint try_except {A : Type} (p : prog A) (h : exn -> prog A) : prog A :=
  match p with
  | Ret a => Ret a
  | Raise (APIException m) => h (APIException m)
  | Raise e => Raise e
  | Log l m k => Log l m (try_except k h)
  | Perform e k => Perform e (fun o => try_except (k o) h)
  end.

Definition perform (e : effect) : prog (answer e) :=
  Perform e (fun o => match o with
                      | Returned v => Ret v
                      | Raised x => Raise x
                      end).

Definition log_info (msg : string) : prog unit := Log INFO msg (Ret tt).
Definition log_error (msg : string) : prog unit := Log ERROR msg (Ret tt).

(** Reading a local variable. *)
Definition read {A : Type} (var : string) (v : local A) : prog A :=
  match v with
  | Bound a => Ret a
  | Unbound => Raise (UnboundLocalError var)
  end.

(** ** Worlds and runs *)

(** A world answers every effect, knowing what happened before. *)
Definition world : Type := list event -> forall e : effect, outcome (answer e).

Fixpoint run {A : Type} (w : world) (p : prog A) (tr : list event)
  : outcome A * list event :=
  match p with
  | Ret a => (Returned a, tr)
  | Raise e => (Raised e, tr)
  | Log l m k => run w k (tr ++ [Logged l m])
  | Perform e k => run w (k (w tr e)) (tr ++ [Did e])
  end.

(** ** Python built-ins the module uses *)

(** [s.split(sep)] for a one-character separator. *)
Fixpoint split (sep : ascii) (s : string) : list string :=
  match s with
  | EmptyString => [EmptyString]
  | String c rest =>
      if Ascii.eqb c sep then EmptyString :: split sep rest
      else match split sep rest with
           | word :: words => String c word :: words
           | [] => [String c EmptyString]
           end
  end.

(** [sep.join(l)] *)
Fixpoint join (sep : string) (l : list string) : string :=
  match l with
  | [] => ""
  | [x] => x
  | x :: rest => x +:+ sep +:+ join sep rest
  end.

(** Iterating a string yields its characters, each a string of length one. *)
Fixpoint chars (s : string) : list string :=
  match s with
  | EmptyString => []
  | String c rest => String c EmptyString :: chars rest
  end.

(** [s[0]] *)
Definition index0_str (s : string) : outcome string :=
  match s with
  | String c _ => Returned (String c EmptyString)
  | EmptyString => Raised (IndexError "string index out of range")
  end.

(** [l[0]] *)
Definition index0 {A : Type} (l : list A) : outcome A :=
  match l with
  | x :: _ => Returned x
  | [] => Raised (IndexError "list index out of range")
  end.

(** [x in l] for strings. *)
Definition str_in (x : string) (l : list string) : bool :=
  existsb (String.eqb x) l.

(** [l.remove(x)]: drops the first occurrence, [ValueError] when there is
    none. *)
Fixpoint list_remove (x : string) (l : list string) : outcome (list string) :=
  match l with
  | [] => Raised (ValueError "list.remove(x): x not in list")
  | y :: rest =>
      if String.eqb y x then Returned rest
      else match list_remove x rest with
           | Returned rest' => Returned (y :: rest')
           | Raised e => Raised e
           end
  end.

Definition upper (c : ascii) : ascii :=
  let n := nat_of_ascii c in
  if ((97 <=? n) && (n <=? 122))%nat then ascii_of_nat (n - 32) else c.

Definition lower (c : ascii) : ascii :=
  let n := nat_of_ascii c in
  if ((65 <=? n) && (n <=? 90))%nat then ascii_of_nat (n + 32) else c.

Fixpoint map_str (f : ascii -> ascii) (s : string) : string :=
  match s with
  | EmptyString => EmptyString
  | String c rest => String (f c) (map_str f rest)
  end.

(** [s.capitalize()] on ASCII text. *)
Definition capitalize (s : string) : string :=
  match s with
  | EmptyString => EmptyString
  | String c rest => String (upper c) (map_str lower rest)
  end.

(** An outcome computed without effects, as a program. *)
Definition lift {A : Type} (o : outcome A) : prog A :=
  match o with
  | Returned a => Ret a
  | Raised e => Raise e
  end.

(** [cohesity_client.<controller>.<method>(...)]; the handle is whatever
    [_get_client] returned, which Python lets be [None]. *)
Definition call (cohesity_client : option client) (r : request)
  : prog (response r) :=
  match cohesity_client with
  | Some cl => perform (sdk cl r)
  | None => Raise (AttributeError "'NoneType' object has no attribute")
  end.

(** ** The client provider *)

Section Module_.

(** The name under which the interpreter loaded the module. *)
Variable __name__ : string.

Definition _get_client : prog (option client) :=
  let context_key := __name__ +:+ ".cohesity_client" in
  let __context__ : gmap string (option client) := {[ "context_key" := None ]} in
  match __context__ !! context_key with
  | Some cached => Ret cached
  | None =>
      opts ← perform (master_config "/etc/salt/master");
      let cohesity_config : gmap string string :=
        default ∅ ((opts : gmap string (gmap string string)) !! "cohesity_config") in
      let cluster_vip := default "" (cohesity_config !! "cluster_vip") in
      let c_username := default "" (cohesity_config !! "username") in
      let c_password := default "" (cohesity_config !! "password") in
      let c_domain := default "" (cohesity_config !! "domain") in
      cohesity_client ← perform (CohesityClient cluster_vip c_username c_password c_domain);
      let __context__ := <[context_key := Some (cohesity_client : client)]> __context__ in
      Ret (Some cohesity_client)
  end.

(** ** The entity resolver *)

Definition _get_sd_id (name : string) : prog (option Z) :=
  cohesity_client ← _get_client;
  log_info ("Getting storage domain with name " +:+ name);;
  resp ← call cohesity_client (get_view_boxes name);
  match resp : list view_box with
  | vb :: _ => Ret (Some (vb_id vb))
  | [] => Ret None
  end.

Definition _get_policy_id (name : string) : prog (option Z) :=
  cohesity_client ← _get_client;
  log_info ("Getting policy with name " +:+ name);;
  resp ← call cohesity_client (get_protection_policies name);
  match resp : list protection_policy with
  | pol :: _ => Ret (Some (policy_id pol))
  | [] => Ret None
  end.

(** The loop over the root nodes: every match overwrites [parent_id]. *)
Fixpoint find_parent (name : string) (result : list source_node)
    (parent_id : Z) : Z :=
  match result with
  | [] => parent_id
  | each_source :: rest =>
      let endpoint := src_endpoint each_source in
      let v_name := src_name each_source in
      find_parent name rest
        (if str_in name [endpoint; v_name] then src_id each_source
         else parent_id)
  end.

(** The loop over the listed virtual machines. *)
Fixpoint collect_vms (vms : list virtual_machine) (vm_names : list string)
    (source_id_list : list Z) : outcome (list string * list Z) :=
  match vms with
  | [] => Returned (vm_names, source_id_list)
  | vm :: rest =>
      match list_remove (vm_name vm) vm_names with
      | Raised e => Raised e
      | Returned vm_names' =>
          collect_vms rest vm_names' (source_id_list ++ [vm_id vm])
      end
  end.

Definition _get_vmware_source_ids (name : string) (vm_list : list string)
  : prog (Z * list Z) :=
  cohesity_client ← _get_client;
  let source_id_list : list Z := [] in
  let parent_id := -1 in
  log_info "Fetching Vcenter and Vm ids";;
  try_except
    (result ← call cohesity_client
                (list_protection_sources_root_nodes (Some K_VMWARE) None);
     let parent_id := find_parent name result parent_id in
     (if parent_id =? -1
      then log_error ("Vcenter " +:+ name +:+ " not available in the cluster")
      else Ret tt);;
     vms ← call cohesity_client (list_virtual_machines parent_id vm_list);
     let vm_names := vm_list in
     '(vm_names, source_id_list) ← lift (collect_vms vms vm_names source_id_list);
     match vm_names with
     | [] => Ret tt
     | _ :: _ =>
         log_error ("Following list of vms '" +:+ join "," vm_names +:+
                    "' are not available in vcenter, " +:+
                    "please make sure the virtual machine names are correct")
     end;;
     Ret (parent_id, source_id_list))
    (fun err => log_error (str_exn err);; Ret (-1, []))%Z.

(** ** Registration *)

Definition register_vcenter (vcenter username password : string) : prog string :=
  try_except
    (cohesity_client ← _get_client;
     existing_sources ← call cohesity_client
                          (list_protection_sources_root_nodes None (Some K_VMWARE));
     if existsb (fun source => String.eqb (src_endpoint source) vcenter)
                (existing_sources : list source_node)
     then Ret ("Source with name " +:+ vcenter +:+ " is already registered")
     else
       let body := {| reg_endpoint := vcenter; reg_environment := K_VMWARE;
                      reg_username := username; reg_password := password;
                      reg_vmware_type := "kVCenter" |} in
       call cohesity_client (create_register_protection_source body);;
       Ret ("Successfully registered Vcenter " +:+ vcenter))
    (fun err => log_error (str_exn err);; Ret (str_exn err)).

(** ** Job operations *)

Definition create_vmware_protection_job
    (job_name vcenter_name sources policy domain : string) (pause_job : bool)
    (timezone description : string) : prog string :=
  try_except
    (cohesity_client ← _get_client;
     resp ← call cohesity_client (get_protection_jobs job_name false);
     if match resp : list protection_job with
        | job :: _ => String.eqb (pj_name job) job_name
        | [] => false
        end
     then Ret ("Job with name " +:+ job_name +:+ " already exists.")
     else
       policy_id ← _get_policy_id policy;
       view_box_id ← _get_sd_id domain;
       '(parent_source_id, source_ids) ←
         _get_vmware_source_ids vcenter_name (split "," sources);
       if parent_source_id =? -1
       then Ret ("Unable to fetch Vcenter with name " +:+ vcenter_name)
       else if (length source_ids =? 0)%nat
       then Ret ("Minimum of one VM is required to created protection job." +:+
                 " Unable to find atleast provided VMs " +:+
                 join "," (chars sources) +:+ " in the Vcenter " +:+ vcenter_name)
       else
         let body := {| body_name := job_name;
                        body_description := description;
                        body_policy_id := policy_id;
                        body_timezone := timezone;
                        body_view_box_id := view_box_id;
                        body_environment := K_VMWARE;
                        body_pause := true;
                        body_parent_source_id := parent_source_id;
                        body_source_ids := source_ids |} in
         resp ← call cohesity_client (create_protection_job body);
         (if pause_job
          then call cohesity_client
                 (change_protection_job_state (pj_id resp) pause_job)
          else Ret tt);;
         Ret ("Successfully created ProtectionGroup: " +:+ body_name body))
    (fun err => Ret ("Error creating job " +:+ job_name +:+ " " +:+ str_exn err)).

(** [for source_id in new_source_ids: if source_id not in body.source_ids:
    body.source_ids.append(source_id)] *)
Fixpoint add_source_ids (new_source_ids source_ids : list Z) : list Z :=
  match new_source_ids with
  | [] => source_ids
  | source_id :: rest =>
      add_source_ids rest
        (if bool_decide (source_id ∈ source_ids) then source_ids
         else source_ids ++ [source_id])
  end.

Definition set_source_ids (body : protection_job) (l : list Z) : protection_job :=
  {| pj_id := pj_id body; pj_name := pj_name body;
     pj_policy_id := pj_policy_id body; pj_view_box_id := pj_view_box_id body;
     pj_parent_source_id := pj_parent_source_id body; pj_source_ids := l |}.

Definition update_vmware_protection_job
    (job_name vcenter_name sources : string) (replace_existing : bool)
  : prog string :=
  try_except
    (cohesity_client ← _get_client;
     resp ← call cohesity_client (get_protection_jobs job_name false);
     match resp : list protection_job with
     | [] => Ret ("Job with name " +:+ job_name +:+ " not available")
     | body :: _ =>
         let job_id := pj_id body in
         '(_, new_source_ids) ←
           _get_vmware_source_ids vcenter_name (split "," sources);
         let body :=
           set_source_ids body
             (if replace_existing then [] else pj_source_ids body) in
         let body :=
           set_source_ids body (add_source_ids new_source_ids (pj_source_ids body)) in
         call cohesity_client (update_protection_job body job_id);;
         Ret ("Successfully Updated ProtectionGroup: " +:+ pj_name body)
     end)
    (fun err => Ret ("Error updating job " +:+ job_name +:+ " " +:+ str_exn err)).

(** [for job in jobs: if job.name == job_name: job_id = job.id; break] *)
Fixpoint assign_job_id {V : Type} (bound : Z -> V) (job_name : string)
    (jobs : list protection_job) (job_id : V) : V :=
  match jobs with
  | [] => job_id
  | job :: rest =>
      if String.eqb (pj_name job) job_name then bound (pj_id job)
      else assign_job_id bound job_name rest job_id
  end.

Definition supported_states : list string :=
  ["activate"; "deactivate"; "pause"; "resume"].

Definition update_vmware_protection_job_state (job_name state : string)
  : prog string :=
  try_except
    (cohesity_client ← _get_client;
     jobs ← call cohesity_client (get_protection_jobs job_name false);
     match jobs : list protection_job with
     | [] => Ret ("Job with name " +:+ job_name +:+ " not available.")
     | _ :: _ =>
         let job_id := assign_job_id Bound job_name jobs Unbound in
         if negb (str_in state supported_states)
         then Ret ("Job state " +:+ state +:+
                   " not supported. Please provide one of the " +:+
                   "following states " +:+ join ", " supported_states)
         else
           let action := "k" +:+ capitalize state in
           job_id ← read "job_id" job_id;
           call cohesity_client
             (update_protection_jobs_state
                {| st_action := action; st_job_ids := [job_id] |});;
           Ret ("Successfully " +:+ state +:+ "d future run for job " +:+ job_name)
     end)
    (fun err => Ret ("Error while attempting to " +:+ state +:+ " the job " +:+
                     job_name +:+ " " +:+ str_exn err)).

Definition cancel_vmware_protection_job (job_name : string) : prog string :=
  try_except
    (cohesity_client ← _get_client;
     jobs ← call cohesity_client (get_protection_jobs job_name false);
     match jobs : list protection_job with
     | [] => Ret ("Job with name " +:+ job_name +:+ " not available.")
     | _ :: _ =>
         let job_id := assign_job_id Bound job_name jobs Unbound in
         job_id ← read "job_id" job_id;
         if job_id =? 0
         then Ret ("Job with name " +:+ job_name +:+ " not available.")
         else
           runs ← call cohesity_client (get_protection_runs job_id);
           match runs : list protection_run with
           | [] => Ret ("Job run details not available for job " +:+ job_name)
           | latest_run :: _ =>
               if negb (str_in (run_status latest_run) ["kRunning"; "kAccepted"])
               then Ret ("No active job run available for job " +:+ job_name)
               else
                 let run_id := run_job_run_id latest_run in
                 call cohesity_client
                   (create_cancel_protection_job_run job_id run_id);;
                 Ret ("Successfully cancelled the run for job " +:+ job_name)
           end
     end)
    (fun err => Ret ("Error while attempting to cancel the job " +:+ job_name +:+
                     ", error : " +:+ str_exn err)).

Definition run_vmware_protection_job (job_name : string) : prog string :=
  try_except
    (let job_id : option Z := None in
     cohesity_client ← _get_client;
     jobs ← call cohesity_client (get_protection_jobs job_name false);
     match jobs : list protection_job with
     | [] => Ret ("Job with name " +:+ job_name +:+ " not available.")
     | _ :: _ =>
         let job_id := assign_job_id Some job_name jobs job_id in
         match job_id with
         | None => Ret ("Job with name " +:+ job_name +:+ " not available.")
         | Some job_id =>
             if job_id =? 0
             then Ret ("Job with name " +:+ job_name +:+ " not available.")
             else
               call cohesity_client (create_run_protection_job job_id);;
               Ret ("Successfully started run for job " +:+ job_name)
         end
     end)
    (fun err => Ret ("Error while attempting to start the job " +:+ job_name +:+
                     ", error : " +:+ str_exn err)).

Definition delete_vmware_protection_job (job_name : string)
    (delete_snapshots : bool) : prog string :=
  try_except
    (cohesity_client ← _get_client;
     jobs ← call cohesity_client (get_protection_jobs job_name false);
     match jobs : list protection_job with
     | [] => Ret ("Job with name " +:+ job_name +:+ " not available.")
     | _ :: _ =>
         let job_id := assign_job_id Bound job_name jobs Unbound in
         job_id ← read "job_id" job_id;
         if job_id =? 0
         then Ret ("Job with name " +:+ job_name +:+ " not available.")
         else
           call cohesity_client (delete_protection_job job_id delete_snapshots);;
           Ret ("Successfully deleted job " +:+ job_name)
     end)
    (fun err => Ret ("Error while attempting to delete the job " +:+ job_name +:+
                     ", error : " +:+ str_exn err)).

(** ** Restore *)

(** What [_fetch_source_objects] hands back: an id, [None], or the text of an
    [APIException]. *)
Inductive fetched : Type :=
| FoundId (id : Z)
| NotFound
| ErrorText (msg : string).

Fixpoint weight (n : tree_node) : nat :=
  match n with
  | TreeNode _ _ _ l =>
      S ((fix go (l : list tree_node) : nat :=
            match l with
            | [] => 0%nat
            | x :: r => (weight x + go r)%nat
            end) l)
  end.

Definition forest_weight (l : list tree_node) : nat :=
  foldr (fun n acc => (weight n + acc)%nat) 0%nat l.

(** [for node in nodes] while the body extends [nodes]: [visited] are the
    elements the iterator is past, [pending] those it still has to yield; the
    list object is [visited ++ pending] throughout.  Each step takes one unit
    of [fuel]; [forest_weight pending] units always suffice. *)
Fixpoint walk_nodes (fuel : nat) (visited pending : list tree_node)
    (source_type name : string) : fetched * list tree_node :=
  match fuel with
  | O => (NotFound, visited ++ pending)
  | S fuel' =>
      match pending with
      | [] => (NotFound, visited)
      | node :: rest =>
          match node_nodes node with
          | _ :: _ =>
              walk_nodes fuel' (visited ++ [node]) (rest ++ node_nodes node)
                source_type name
          | [] =>
              if String.eqb (node_type node) source_type
              then
                let obj_name := node_name node in
                if String.eqb name ""
                then (FoundId (node_id node), visited ++ pending)
                else if String.eqb name obj_name
                then (FoundId (node_id node), visited ++ pending)
                else walk_nodes fuel' (visited ++ [node]) rest source_type name
              else walk_nodes fuel' (visited ++ [node]) rest source_type name
          end
      end
  end.

(** Returns the result together with [source_objects] as the call leaves it:
    the traversal has extended [source_objects[0].nodes] in place. *)
Definition _fetch_source_objects (source_objects : list source_object)
    (source_type name : string) : prog (fetched * list source_object) :=
  try_except
    (match source_objects with
     | [] => Raise (IndexError "list index out of range")
     | first :: others =>
         let nodes := so_nodes first in
         let '(found, nodes) :=
           walk_nodes (forest_weight nodes) [] nodes source_type name in
         Ret (found, {| so_nodes := nodes |} :: others)
     end)
    (fun err => Ret (ErrorText (str_exn err), source_objects)).

(** The locals of the scan over the snapshots. *)
Record scan_state := {
  timestamp : Z;
  job_id : local Z;
  job_run_id : local Z;
  job_uid : universal_id;
  t_stamp : local Z }.

Definition scan_start : scan_state :=
  {| timestamp := 0; job_id := Unbound; job_run_id := Unbound;
     job_uid := UniversalId; t_stamp := Unbound |}.

(** [for each_snapshot in snapshots: ...] *)
Fixpoint scan_snapshots (snapshots : list object_snapshot) (st : scan_state)
  : outcome scan_state :=
  match snapshots with
  | [] => Returned st
  | each_snapshot :: rest =>
      match index0 (versions each_snapshot) with
      | Raised e => Raised e
      | Returned version0 =>
          let snapshot_time := started_time_usecs version0 in
          if timestamp st <? snapshot_time
          then scan_snapshots rest
                 {| timestamp := snapshot_time;
                    job_id := Bound (snap_job_id each_snapshot);
                    job_run_id := Bound (ver_job_run_id version0);
                    job_uid := snap_job_uid each_snapshot;
                    t_stamp := Bound snapshot_time |}
          else scan_snapshots rest st
      end
  end.

(** The part of [restore_vms] after the snapshot search: pick a snapshot,
    fill the request, submit it. *)
Definition recover_latest (cohesity_client : option client)
    (task_name vm_names : string) (source_id : list Z)
    (prefix suffix : string) (powered_on : bool)
    (snapshots : list object_snapshot) : prog string :=
  st ← lift (scan_snapshots snapshots scan_start);
  job_id ← read "job_id" (job_id st);
  job_run_id ← read "job_run_id" (job_run_id st);
  protection_source_id ← lift (index0 source_id);
  sourceName ← lift (index0_str vm_names);
  t_stamp ← read "t_stamp" (t_stamp st);
  let restore_obj :=
    {| ro_environment := K_VMWARE;
       ro_job_id := job_id;
       ro_job_run_id := job_run_id;
       ro_uid := job_uid st;
       ro_protection_source_id := protection_source_id;
       ro_sourceName := sourceName;
       ro_started_time_usecs := t_stamp |} in
  let vmware_params :=
    {| vp_powered_on := powered_on;
       vp_recovery_process_type := "kInstantRecovery";
       vp_prefix := prefix;
       vp_suffix := suffix |} in
  let body :=
    {| rt_name := task_name; rt_type := "kRecoverVMs";
       rt_objects := [] ++ [restore_obj];
       rt_vmware_parameters := vmware_params |} in
  call cohesity_client (create_recover_task body);;
  Ret ("Successfully created restore task '" +:+ task_name +:+ "'.").

Definition restore_vms (task_name vcenter_name vm_names resource_pool
    datastore_name prefix suffix : string) (powered_on : bool) : prog string :=
  try_except
    (cohesity_client ← _get_client;
     '(parent_id, source_id) ←
       _get_vmware_source_ids vcenter_name (split "," vm_names);
     source_objects ← call cohesity_client
                        (list_protection_sources parent_id true
                           ["kHostSystem"; "kVirtualMachine"] K_VMWARE);
     '(resource_pool_id, source_objects) ←
       _fetch_source_objects source_objects "kResourcePool" resource_pool;
     '(datastore_id, source_objects) ←
       _fetch_source_objects source_objects "kDatastore" datastore_name;
     search ← lift (index0_str vm_names);
     resp ← call cohesity_client (search_objects search K_VMWARE parent_id);
     recover_latest cohesity_client task_name vm_names source_id prefix suffix
       powered_on resp)
    (fun err => Ret (str_exn err)).

End Module_.

(** * Auxiliary definitions

    [only P p]: every event the program [p] can produce satisfies [P]. *)

Inductive only (P : event -> Prop) {A : Type} : prog A -> Prop :=
| only_Ret (a : A) : only P (Ret a)
| only_Raise (e : exn) : only P (Raise e)
| only_Log (l : level) (m : string) (k : prog A) :
    P (Logged l m) -> only P k -> only P (Log l m k)
| only_Perform (e : effect) (k : outcome (answer e) -> prog A) :
    P (Did e) -> (forall o, only P (k o)) -> only P (Perform e k).

(** What [_get_client] does once the configuration is read. *)
Definition connect (opts : gmap string (gmap string string)) : effect :=
  let cohesity_config := default ∅ (opts !! "cohesity_config") in
  CohesityClient (default "" (cohesity_config !! "cluster_vip"))
                 (default "" (cohesity_config !! "username"))
                 (default "" (cohesity_config !! "password"))
                 (default "" (cohesity_config !! "domain")).

Definition get_client_body : prog (option client) :=
  opts ← perform (master_config "/etc/salt/master");
  cohesity_client ← (perform (connect opts) : prog client);
  Ret (Some cohesity_client).

(** * Clusters to run the module against

    A [cluster] fixes what the SDK answers; [serve] turns it into a world
    whose answers do not depend on the history, and in which every
    [CohesityClient(...)] is a new object.  Virtual machines are listed under
    a registered vCenter only. *)

Record cluster := {
  roots : list source_node;
  machines : list virtual_machine;
  policies : list protection_policy;
  boxes : list view_box;
  jobs : list protection_job;
  runs : list protection_run;
  sources : list source_object;
  snapshots : list object_snapshot }.

Definition created (body : protection_job_request_body) : protection_job :=
  {| pj_id := 100; pj_name := body_name body;
     pj_policy_id := body_policy_id body;
     pj_view_box_id := body_view_box_id body;
     pj_parent_source_id := body_parent_source_id body;
     pj_source_ids := body_source_ids body |}.

Definition reply (c : cluster) (r : request) : outcome (response r) :=
  match r as r0 return outcome (response r0) with
  | get_view_boxes _ => Returned (boxes c)
  | get_protection_policies _ => Returned (policies c)
  | list_protection_sources_root_nodes _ _ => Returned (roots c)
  | list_virtual_machines v_center_id names =>
      Returned
        (if bool_decide (v_center_id ∈ src_id <$> roots c)
         then filter (fun vm => str_in (vm_name vm) names = true) (machines c)
         else [])
  | get_protection_jobs _ _ => Returned (jobs c)
  | create_protection_job body => Returned (created body)
  | get_protection_runs _ => Returned (runs c)
  | list_protection_sources _ _ _ _ => Returned (sources c)
  | search_objects _ _ _ => Returned (snapshots c)
  | create_register_protection_source _
  | change_protection_job_state _ _
  | update_protection_job _ _
  | update_protection_jobs_state _
  | create_cancel_protection_job_run _ _
  | create_run_protection_job _
  | delete_protection_job _ _
  | create_recover_task _ => Returned tt
  end.

Definition master_opts : gmap string (gmap string string) :=
  {[ "cohesity_config" :=
       {[ "cluster_vip" := "10.2.0.10"; "username" := "admin";
          "password" := "secret"; "domain" := "LOCAL" ]} ]}.

Definition serve (c : cluster) : world :=
  fun tr e =>
    match e as e0 return outcome (answer e0) with
    | master_config _ => Returned master_opts
    | CohesityClient _ _ _ _ => Returned (length tr)
    | sdk _ r => reply c r
    end.

Definition job_of (id : Z) (name : string) (source_ids : list Z) : protection_job :=
  {| pj_id := id; pj_name := name; pj_policy_id := Some 1;
     pj_view_box_id := Some 5; pj_parent_source_id := 7;
     pj_source_ids := source_ids |}.

Definition snapshot_of (job run time : Z) : object_snapshot :=
  {| snap_job_id := job;
     snap_job_uid := {| uid_cluster_id := Some 1;
                        uid_cluster_incarnation_id := Some 2;
                        uid_id := Some job |};
     versions := [ {| started_time_usecs := time; ver_job_run_id := run |} ] |}.

(** One vCenter ["vc1"] with the machines ["vm1"] and ["vm2"], nothing else. *)
Definition site : cluster :=
  {| roots := [ {| src_endpoint := "vc1.example.com"; src_name := "vc1";
                   src_id := 7 |} ];
     machines := [ {| vm_name := "vm1"; vm_id := 11 |};
                   {| vm_name := "vm2"; vm_id := 12 |} ];
     policies := []; boxes := []; jobs := []; runs := [];
     sources := [ {| so_nodes := [] |} ]; snapshots := [] |}.

Definition with_jobs (c : cluster) (l : list protection_job) : cluster :=
  {| roots := roots c; machines := machines c; policies := policies c;
     boxes := boxes c; jobs := l; runs := runs c; sources := sources c;
     snapshots := snapshots c |}.

Definition with_snapshots (c : cluster) (l : list object_snapshot) : cluster :=
  {| roots := roots c; machines := machines c; policies := policies c;
     boxes := boxes c; jobs := jobs c; runs := runs c; sources := sources c;
     snapshots := l |}.

(** The module name of the file in the package. *)
Definition module_name : string := "saltext.cohesity.modules.cohesity_mod".

(** ** Vocabulary of the statements *)

(** The captured timestamp of a snapshot record: that of its first version. *)
Definition captured (s : object_snapshot) : option Z :=
  started_time_usecs <$> head (versions s).

(** The locals of the scan right after it took the snapshot [s], whose first
    version is [v]. *)
Definition taken (s : object_snapshot) (v : snapshot_version) : scan_state :=
  {| timestamp := started_time_usecs v;
     job_id := Bound (snap_job_id s);
     job_run_id := Bound (ver_job_run_id v);
     job_uid := snap_job_uid s;
     t_stamp := Bound (started_time_usecs v) |}.

(** The restore object built from the snapshot [s] and its first version. *)
Definition restore_object_of (s : object_snapshot) (v : snapshot_version)
    (protection_source_id : Z) (sourceName : string) : restore_object_details :=
  {| ro_environment := K_VMWARE;
     ro_job_id := snap_job_id s;
     ro_job_run_id := ver_job_run_id v;
     ro_uid := snap_job_uid s;
     ro_protection_source_id := protection_source_id;
     ro_sourceName := sourceName;
     ro_started_time_usecs := started_time_usecs v |}.

Definition recover_request (task_name prefix suffix : string) (powered_on : bool)
    (obj : restore_object_details) : recover_task_request :=
  {| rt_name := task_name; rt_type := "kRecoverVMs"; rt_objects := [obj];
     rt_vmware_parameters :=
       {| vp_powered_on := powered_on;
          vp_recovery_process_type := "kInstantRecovery";
          vp_prefix := prefix; vp_suffix := suffix |} |}.

(** [s] at position [i] is the first snapshot of [l] with the greatest
    captured timestamp. *)
Definition first_latest (l : list object_snapshot) (i : nat)
    (s : object_snapshot) (v : snapshot_version) : Prop :=
  l !! i = Some s /\ head (versions s) = Some v /\
  forall (j : nat) (s' : object_snapshot) (v' : snapshot_version),
    l !! j = Some s' -> head (versions s') = Some v' ->
    started_time_usecs v' <= started_time_usecs v /\
    ((j < i)%nat -> started_time_usecs v' < started_time_usecs v).

(** No state change is submitted. *)
Definition no_state_change (ev : event) : Prop :=
  match ev with
  | Did (sdk _ (update_protection_jobs_state _)) => False
  | _ => True
  end.

(** The first character of [vm_names], as a string. *)
Definition first_character (vm_names s : string) : Prop :=
  exists c rest, vm_names = String c rest /\ s = String c EmptyString.

Definition uses_first_character (vm_names : string) (ev : event) : Prop :=
  match ev with
  | Did (sdk _ (search_objects search _ _)) => first_character vm_names search
  | Did (sdk _ (create_recover_task body)) =>
      Forall (fun obj => first_character vm_names (ro_sourceName obj))
        (rt_objects body)
  | _ => True
  end.

(** Events other than the two requests of a restore. *)
Definition aside (ev : event) : Prop :=
  match ev with
  | Did (sdk _ (search_objects _ _ _)) | Did (sdk _ (create_recover_task _)) => False
  | _ => True
  end.

(** * Vocabulary for further properties *)

(** The requests an event may be, if it is an SDK call at all. *)
Definition calls (allowed : request -> Prop) (ev : event) : Prop :=
  match ev with
  | Did (sdk _ r) => allowed r
  | _ => True
  end.

Definition is_listing (r : request) : Prop :=
  match r with
  | list_protection_sources_root_nodes _ _ | list_virtual_machines _ _ => True
  | _ => False
  end.

(** What [create_vmware_protection_job] may ask of the cluster. *)
Definition create_request (job_name policy domain : string) (r : request) : Prop :=
  match r with
  | get_protection_jobs names is_deleted => names = job_name /\ is_deleted = false
  | get_protection_policies names => names = policy
  | get_view_boxes names => names = domain
  | list_protection_sources_root_nodes _ _ | list_virtual_machines _ _ => True
  | create_protection_job body =>
      body_name body = job_name /\ body_parent_source_id body <> -1 /\
      body_source_ids body <> [] /\ body_pause body = true /\
      body_environment body = K_VMWARE
  | change_protection_job_state _ pause => pause = true
  | _ => False
  end.

(** Requests that only read the cluster. *)
Definition is_read (r : request) : Prop :=
  match r with
  | get_view_boxes _ | get_protection_policies _
  | list_protection_sources_root_nodes _ _ | list_virtual_machines _ _
  | get_protection_jobs _ _ | get_protection_runs _
  | list_protection_sources _ _ _ _ | search_objects _ _ _ => True
  | _ => False
  end.

(** The one kind of change each operation is there for. *)
Inductive operation : Type :=
| Register | Create | Update | ChangeState | Cancel | Run | Delete | Restore.

Definition changes (op : operation) (r : request) : Prop :=
  match op, r with
  | Register, create_register_protection_source _
  | Create, create_protection_job _
  | Create, change_protection_job_state _ _
  | Update, update_protection_job _ _
  | ChangeState, update_protection_jobs_state _
  | Cancel, create_cancel_protection_job_run _ _
  | Run, create_run_protection_job _
  | Delete, delete_protection_job _ _
  | Restore, create_recover_task _ => True
  | _, _ => False
  end.

Definition within_remit (op : operation) : event -> Prop :=
  calls (fun r => is_read r \/ changes op r).

Definition state_change_request (r : request) : Prop :=
  match r with
  | update_protection_jobs_state body =>
      st_action body ∈ ["kActivate"; "kDeactivate"; "kPause"; "kResume"] /\
      length (st_job_ids body) = 1%nat
  | _ => True
  end.

(** [n] is one of the nodes of [l] or lies below one. *)
Inductive reachable : list tree_node -> tree_node -> Prop :=
| reach_top (l : list tree_node) (n : tree_node) : n ∈ l -> reachable l n
| reach_below (l : list tree_node) (m n : tree_node) :
    m ∈ l -> reachable (node_nodes m) n -> reachable l n.

(** What the traversal looks for: a node without children, of the given type
    and, when a name is given, of that name. *)
Definition wanted (source_type name : string) (n : tree_node) : Prop :=
  node_nodes n = [] /\ node_type n = source_type /\
  (name = "" \/ node_name n = name).

(** ** More clusters

    [world_of] is [serve] with the master configuration given and with
    answers of the cluster that can be overridden request by request. *)

Definition world_of (opts : gmap string (gmap string string)) (c : cluster)
    (override : forall r : request, option (outcome (response r))) : world :=
  fun tr e =>
    match e as e0 return outcome (answer e0) with
    | master_config _ => Returned opts
    | CohesityClient _ _ _ _ => Returned (length tr)
    | sdk _ r =>
        match override r with
        | Some o => o
        | None => reply c r
        end
    end.

Definition as_configured (r : request) : option (outcome (response r)) := None.

Definition refuse_pause (r : request) : option (outcome (response r)) :=
  match r as r0 return option (outcome (response r0)) with
  | change_protection_job_state _ _ => Some (Raised (APIException "pause refused"))
  | _ => None
  end.

Definition refuse_roots (r : request) : option (outcome (response r)) :=
  match r as r0 return option (outcome (response r0)) with
  | list_protection_sources_root_nodes _ _ =>
      Some (Raised (APIException "cluster unreachable"))
  | _ => None
  end.

Definition refuse_machines (r : request) : option (outcome (response r)) :=
  match r as r0 return option (outcome (response r0)) with
  | list_virtual_machines _ _ => Some (Raised (APIException "listing failed"))
  | _ => None
  end.

(** The cluster lists a machine under another spelling than the requested. *)
Definition list_other_spelling (r : request) : option (outcome (response r)) :=
  match r as r0 return option (outcome (response r0)) with
  | list_virtual_machines _ _ =>
      Some (Returned [ {| vm_name := "VM1"; vm_id := 11 |} ])
  | _ => None
  end.

Definition with_runs (c : cluster) (l : list protection_run) : cluster :=
  {| roots := roots c; machines := machines c; policies := policies c;
     boxes := boxes c; jobs := jobs c; runs := l; sources := sources c;
     snapshots := snapshots c |}.

Definition with_sources (c : cluster) (l : list source_object) : cluster :=
  {| roots := roots c; machines := machines c; policies := policies c;
     boxes := boxes c; jobs := jobs c; runs := runs c; sources := l;
     snapshots := snapshots c |}.

Definition with_roots (c : cluster) (l : list source_node) : cluster :=
  {| roots := l; machines := machines c; policies := policies c;
     boxes := boxes c; jobs := jobs c; runs := runs c; sources := sources c;
     snapshots := snapshots c |}.

(** The two events of a successful [_get_client] against [serve]. *)
Definition connected : list event :=
  [Did (master_config "/etc/salt/master");
   Did (CohesityClient "10.2.0.10" "admin" "secret" "LOCAL")].
(** * Running programs *)

Section Run.

Context (w : world).

Lemma run_bind {A B : Type} (p : prog A) (f : A -> prog B) (tr : list event) :
  run w (p ≫= f) tr =
  match run w p tr with
  | (Returned a, tr') => run w (f a) tr'
  | (Raised e, tr') => (Raised e, tr')
  end.
Proof.
  change (p ≫= f) with (bind p f). revert tr.
  induction p as [a|e|l m k IH|e k IH]; intros tr; simpl; auto.
Qed.

Lemma run_try_except {A : Type} (p : prog A) (h : exn -> prog A) (tr : list event) :
  run w (try_except p h) tr =
  match run w p tr with
  | (Raised (APIException m), tr') => run w (h (APIException m)) tr'
  | r => r
  end.
Proof.
  revert tr.
  induction p as [a|e|l m k IH|e k IH]; intros tr; simpl; auto.
  destruct e; reflexivity.
Qed.

Lemma run_perform (e : effect) (tr : list event) :
  run w (perform e) tr = (w tr e, tr ++ [Did e]).
Proof. simpl. destruct (w tr e); reflexivity. Qed.

Lemma run_call (h : client) (r : request) (tr : list event) :
  run w (call (Some h) r) tr = (w tr (sdk h r), tr ++ [Did (sdk h r)]).
Proof. exact (run_perform (sdk h r) tr). Qed.

Lemma run_lift {A : Type} (o : outcome A) (tr : list event) :
  run w (lift o) tr = (o, tr).
Proof. destruct o; reflexivity. Qed.

Lemma run_log_info (m : string) (tr : list event) :
  run w (log_info m) tr = (Returned tt, tr ++ [Logged INFO m]).
Proof. reflexivity. Qed.

Lemma run_log_error (m : string) (tr : list event) :
  run w (log_error m) tr = (Returned tt, tr ++ [Logged ERROR m]).
Proof. reflexivity. Qed.

(** A run only ever extends the trace. *)
Lemma run_extends {A : Type} (p : prog A) (tr : list event) :
  exists new, (run w p tr).2 = tr ++ new.
Proof.
  revert tr. induction p as [a|e|l m k IH|e k IH]; intros tr; simpl.
  - exists []. by rewrite app_nil_r.
  - exists []. by rewrite app_nil_r.
  - destruct (IH (tr ++ [Logged l m])) as [new ->].
    exists (Logged l m :: new). by rewrite <- app_assoc.
  - destruct (IH (w tr e) (tr ++ [Did e])) as [new ->].
    exists (Did e :: new). by rewrite <- app_assoc.
Qed.

End Run.

(** Stepping a run: one rewrite per construct, traces kept right-nested. *)

Ltac step_call :=
  match goal with
  | |- context [@run ?A ?w (call (Some ?h) ?r) ?t] =>
      let H := fresh in
      assert (H : @run A w (call (Some h) r) t
                  = (w t (sdk h r), t ++ [Did (sdk h r)]))
        by exact (run_call w h r t);
      rewrite H; clear H
  end.

Ltac norm := rewrite <- ?app_assoc; cbn [app run]; cbv beta iota.

Ltac step :=
  first [ rewrite run_bind | rewrite run_try_except | step_call
        | rewrite run_lift | rewrite run_log_info | rewrite run_log_error ];
  norm.

Ltac use_hyp :=
  match goal with
  | H : run _ _ _ = _ |- _ => rewrite H
  | H : _ = Returned _ |- _ => rewrite H
  | H : _ = Raised _ |- _ => rewrite H
  end.

Ltac steps := repeat first [step | use_hyp].

(** ** Programs whose every event satisfies a predicate *)

Section Only.

Context (P : event -> Prop).

Lemma only_bind {A B : Type} (p : prog A) (f : A -> prog B) :
  only P p -> (forall a, only P (f a)) -> only P (p ≫= f).
Proof.
  change (p ≫= f) with (bind p f).
  induction 1; intros Hf; simpl; try constructor; auto.
Qed.

Lemma only_try_except {A : Type} (p : prog A) (h : exn -> prog A) :
  only P p -> (forall e, only P (h e)) -> only P (try_except p h).
Proof.
  induction 1 as [a|e|l m k HP Hk IH|e k HP Hk IH]; intros Hh; simpl;
    try (constructor; auto).
  destruct e; auto; constructor.
Qed.

Lemma only_perform (e : effect) : P (Did e) -> only P (perform e).
Proof. intros HP. constructor; [done|]. intros [v|x]; constructor. Qed.

Lemma only_call (c : option client) (r : request) :
  (forall h, c = Some h -> P (Did (sdk h r))) -> only P (call c r).
Proof.
  destruct c as [h|]; simpl; intros HP; [|constructor].
  apply (only_perform (sdk h r)). by apply HP.
Qed.

Lemma only_lift {A : Type} (o : outcome A) : only P (lift o).
Proof. destruct o; constructor. Qed.

(** Binding a pure outcome: the continuation only matters on its value. *)
Lemma only_bind_lift {A B : Type} (o : outcome A) (f : A -> prog B) :
  (forall a, o = Returned a -> only P (f a)) -> only P (lift o ≫= f).
Proof. destruct o as [a|e]; intros Hf; [by apply Hf|constructor]. Qed.

Lemma only_read {A : Type} (var : string) (v : local A) : only P (read var v).
Proof. destruct v; constructor. Qed.

Lemma only_log (l : level) (m : string) :
  P (Logged l m) -> only P (Log l m (Ret tt)).
Proof. intros HP. constructor; [done|constructor]. Qed.

Lemma run_only {A : Type} (w : world) (p : prog A) (tr : list event) :
  only P p -> Forall P tr -> Forall P (run w p tr).2.
Proof.
  intros Hp. revert tr.
  induction Hp as [a|e|l m k HP Hk IH|e k HP Hk IH]; intros tr Htr; simpl; auto.
  - apply IH. apply Forall_app; split; [done|]. by constructor.
  - apply IH. apply Forall_app; split; [done|]. by constructor.
Qed.

End Only.

(** * The client provider *)

Lemma length_append (s1 s2 : string) :
  String.length (s1 +:+ s2) = (String.length s1 + String.length s2)%nat.
Proof. induction s1 as [|c s1 IH]; simpl; [done|]. by rewrite IH. Qed.

(** The key under which [_get_client] looks its handle up is never the one
    key its fresh dictionary holds. *)
Lemma context_key_absent (name : string) :
  ({[ "context_key" := None ]} : gmap string (option client))
    !! (name +:+ ".cohesity_client") = None.
Proof.
  apply lookup_singleton_None. intros Heq.
  apply (f_equal String.length) in Heq. rewrite length_append in Heq.
  simpl in Heq. lia.
Qed.

Lemma _get_client_eq (name : string) : _get_client name = get_client_body.
Proof. unfold _get_client. by rewrite context_key_absent. Qed.

Lemma run_get_client (w : world) (name : string) (tr : list event) :
  run w (_get_client name) tr =
  match w tr (master_config "/etc/salt/master") with
  | Raised e => (Raised e, tr ++ [Did (master_config "/etc/salt/master")])
  | Returned opts =>
      let tr1 := tr ++ [Did (master_config "/etc/salt/master")] in
      match w tr1 (connect opts) with
      | Raised e => (Raised e, tr1 ++ [Did (connect opts)])
      | Returned h => (Returned (Some h), tr1 ++ [Did (connect opts)])
      end
  end.
Proof.
  rewrite _get_client_eq. unfold get_client_body. simpl.
  destruct (w tr _) as [opts|e]; simpl; [|done].
  by destruct (w _ (connect opts)).
Qed.

Lemma only_get_client (P : event -> Prop) (name : string) :
  (forall e, (forall h r, e <> sdk h r) -> P (Did e)) -> only P (_get_client name).
Proof.
  intros HP. rewrite _get_client_eq. unfold get_client_body.
  apply only_bind;
    [apply (only_perform P (master_config "/etc/salt/master")); by apply HP|].
  intros opts.
  apply only_bind; [apply (only_perform P (connect opts)); by apply HP|].
  intros h. constructor.
Qed.

(** * The client provider builds a handle per call *)

(** C2: two calls of [_get_client] in a row, under any module name and against
    any cluster: the second does not hand back the handle of the first, it
    reads the configuration again and constructs a second client. *)
Theorem get_client_constructs_again (name : string) (c : cluster) :
  run (serve c) (_get_client name;; _get_client name) [] =
  (Returned (Some 3%nat),
   [Did (master_config "/etc/salt/master");
    Did (CohesityClient "10.2.0.10" "admin" "secret" "LOCAL");
    Did (master_config "/etc/salt/master");
    Did (CohesityClient "10.2.0.10" "admin" "secret" "LOCAL")]).
Proof. rewrite !_get_client_eq. reflexivity. Qed.

(** * Exceptions that leave an operation *)

(** C1: three calls that end in an exception instead of a string.  Restoring
    a machine of which the cluster holds no snapshot reads [job_id] before any
    assignment; so do cancelling and deleting a job when the cluster answers
    the lookup with jobs of other names only. *)
Theorem operations_raise (name : string) :
  (run (serve site)
     (restore_vms name "task" "vc1" "vm1" "" "" "" "" true) []).1
  = Raised (UnboundLocalError "job_id")
  /\ (run (serve (with_jobs site [job_of 4 "nightly-old" [11]]))
        (cancel_vmware_protection_job name "nightly") []).1
     = Raised (UnboundLocalError "job_id")
  /\ (run (serve (with_jobs site [job_of 4 "nightly-old" [11]]))
        (delete_vmware_protection_job name "nightly" true) []).1
     = Raised (UnboundLocalError "job_id").
Proof.
  unfold restore_vms, cancel_vmware_protection_job,
    delete_vmware_protection_job, _get_vmware_source_ids.
  rewrite !_get_client_eq. repeat split; reflexivity.
Qed.

Lemma run_try_except_catches {A : Type} (w : world) (p : prog A)
    (h : exn -> prog A) (tr : list event) :
  (forall e tr' m, (run w (h e) tr').1 <> Raised (APIException m)) ->
  forall m, (run w (try_except p h) tr).1 <> Raised (APIException m).
Proof.
  intros Hh m. rewrite run_try_except.
  destruct (run w p tr) as [[a|e] tr']; [done|].
  destruct e; solve [done | apply Hh].
Qed.

(** What the operations do catch: no [APIException] leaves any of them. *)
Theorem api_exceptions_are_caught (w : world) (name : string)
    (tr : list event) (m : string) (a b c d e f g : string) (x y : bool) :
  (run w (register_vcenter name a b c) tr).1 <> Raised (APIException m) /\
  (run w (create_vmware_protection_job name a b c d e x f g) tr).1
    <> Raised (APIException m) /\
  (run w (update_vmware_protection_job name a b c x) tr).1
    <> Raised (APIException m) /\
  (run w (update_vmware_protection_job_state name a b) tr).1
    <> Raised (APIException m) /\
  (run w (cancel_vmware_protection_job name a) tr).1 <> Raised (APIException m) /\
  (run w (run_vmware_protection_job name a) tr).1 <> Raised (APIException m) /\
  (run w (delete_vmware_protection_job name a x) tr).1 <> Raised (APIException m) /\
  (run w (restore_vms name a b c d e f g x) tr).1 <> Raised (APIException m).
Proof.
  repeat split; apply run_try_except_catches; intros; done.
Qed.

(** * The snapshot a restore recovers *)

Lemma scan_snapshots_spec (l : list object_snapshot) (st : scan_state) :
  Forall (fun s => versions s <> []) l ->
  (scan_snapshots l st = Returned st /\
   forall s v, s ∈ l -> head (versions s) = Some v ->
               started_time_usecs v <= timestamp st)
  \/ (exists i s v, first_latest l i s v /\
        timestamp st < started_time_usecs v /\
        scan_snapshots l st = Returned (taken s v)).
Proof.
  intros Hl. revert st.
  induction Hl as [|s l Hs Hl IH]; intros st.
  { left. split; [done|]. intros s v Hin. by apply elem_of_nil in Hin. }
  destruct (versions s) as [|v0 vs] eqn:Hv; [done|]. clear Hs.
  simpl. rewrite Hv. simpl.
  destruct (Z.ltb_spec (timestamp st) (started_time_usecs v0)) as [Hlt|Hge].
  - destruct (IH (taken s v0)) as [[Hscan Hmax]|(i & s1 & v1 & (Hi & Hh & Hall) & Hgt & Hscan)].
    + right. exists 0%nat, s, v0. split; [|split; [done|exact Hscan]].
      split; [done|]. split; [by rewrite Hv|].
      intros [|j] s' v' Hj Hh'; simpl in Hj.
      * injection Hj as <-. rewrite Hv in Hh'. injection Hh' as <-.
        split; [lia|]. lia.
      * split; [|lia]. apply (Hmax s' v'); [|done].
        apply list_elem_of_lookup. by exists j.
    + right. exists (S i), s1, v1. simpl in Hgt.
      split; [|split; [lia|exact Hscan]].
      split; [done|]. split; [done|].
      intros [|j] s' v' Hj Hh'; simpl in Hj.
      * injection Hj as <-. rewrite Hv in Hh'. injection Hh' as <-.
        split; lia.
      * destruct (Hall j s' v' Hj Hh') as [Hle Hlt']. split; [done|].
        intros Hji. apply Hlt'. lia.
  - destruct (IH st) as [[Hscan Hmax]|(i & s1 & v1 & (Hi & Hh & Hall) & Hgt & Hscan)].
    + left. split; [done|]. intros s' v' Hin Hh'.
      apply elem_of_cons in Hin as [->|Hin]; [|by apply (Hmax s' v')].
      rewrite Hv in Hh'. injection Hh' as <-. done.
    + right. exists (S i), s1, v1.
      split; [|split; [done|exact Hscan]].
      split; [done|]. split; [done|].
      intros [|j] s' v' Hj Hh'; simpl in Hj.
      * injection Hj as <-. rewrite Hv in Hh'. injection Hh' as <-.
        split; lia.
      * destruct (Hall j s' v' Hj Hh') as [Hle Hlt']. split; [done|].
        intros Hji. apply Hlt'. lia.
Qed.

(** C3, as the code has it: among snapshot records that all carry a version
    and of which one was captured at a positive time, the recovery request is
    built from a snapshot with the greatest captured timestamp, and of
    several with that timestamp from the first in list order. *)
Theorem recover_latest_first_latest (w : world) (h : client)
    (task_name vm_names prefix suffix : string) (source_id : list Z)
    (powered_on : bool) (l : list object_snapshot) (tr : list event) :
  Forall (fun s => versions s <> []) l ->
  Exists (fun s => exists t, captured s = Some t /\ 0 < t) l ->
  exists i s v, first_latest l i s v /\
    forall sid c rest,
      head source_id = Some sid -> vm_names = String c rest ->
      (run w (recover_latest (Some h) task_name vm_names source_id prefix
                suffix powered_on l) tr).2
      = tr ++ [Did (sdk h (create_recover_task
                 (recover_request task_name prefix suffix powered_on
                    (restore_object_of s v sid (String c "")))))].
Proof.
  intros Hl Hpos.
  destruct (scan_snapshots_spec l scan_start Hl)
    as [[_ Hmax]|(i & s & v & Hfirst & _ & Hscan)].
  { exfalso. apply Exists_exists in Hpos as (s & Hin & t & Ht & Hpos).
    unfold captured in Ht. destruct (head (versions s)) as [v|] eqn:Hh; [|done].
    injection Ht as <-. specialize (Hmax s v Hin Hh). simpl in Hmax. lia. }
  exists i, s, v. split; [done|].
  intros sid c rest Hsid ->. destruct source_id as [|sid' sids]; [done|].
  injection Hsid as ->.
  unfold recover_latest. rewrite run_bind, run_lift, Hscan. simpl.
  by destruct (w tr _).
Qed.

Lemma recover_latest_first_latest_witness :
  let l := [snapshot_of 1 10 300; snapshot_of 2 20 500; snapshot_of 3 30 500] in
  Forall (fun s => versions s <> []) l /\
  exists i s v, first_latest l i s v /\
    forall sid c rest,
      head [11] = Some sid -> "vm1" = String c rest ->
      (run (serve site)
         (recover_latest (Some 1%nat) "task" "vm1" [11] "" "" true l) []).2
      = [] ++ [Did (sdk 1%nat (create_recover_task
                 (recover_request "task" "" "" true
                    (restore_object_of s v sid (String c "")))))].
Proof.
  assert (Hl : Forall (fun s => versions s <> [])
                 [snapshot_of 1 10 300; snapshot_of 2 20 500; snapshot_of 3 30 500])
    by (repeat constructor; done).
  split; [exact Hl|].
  apply (recover_latest_first_latest (serve site) 1%nat "task" "vm1" "" ""
           [11] true _ [] Hl).
  apply Exists_cons_hd. exists 300. split; [reflexivity|lia].
Defined.

(** C3 as stated fails on a tie: of two snapshots captured at the same time,
    the request carries the job and run of the first, not of the last. *)
Lemma restore_vms_tie_keeps_first :
  let tied := [snapshot_of 1 10 500; snapshot_of 2 20 500] in
  last (run (serve (with_snapshots site tied))
          (restore_vms module_name "task" "vc1" "vm1" "" "" "" "" true) []).2
  = Some (Did (sdk 1%nat (create_recover_task
            (recover_request "task" "" "" true
               {| ro_environment := "kVMware";
                  ro_job_id := 1;
                  ro_job_run_id := 10;
                  ro_uid := snap_job_uid (snapshot_of 1 10 500);
                  ro_protection_source_id := 11;
                  ro_sourceName := "v";
                  ro_started_time_usecs := 500 |}))))
  /\ last tied = Some (snapshot_of 2 20 500)
  /\ captured (snapshot_of 1 10 500) = captured (snapshot_of 2 20 500).
Proof. repeat split; reflexivity. Qed.

(** * Resolving a vCenter and its machines *)

Lemma list_remove_raises (x : string) (l : list string) (e : exn) :
  list_remove x l = Raised e -> e = ValueError "list.remove(x): x not in list".
Proof.
  induction l as [|y l IH]; simpl; [by intros [= <-]|].
  destruct (String.eqb y x); [done|].
  destruct (list_remove x l); [done|]. intros [= <-]. by apply IH.
Qed.

Lemma collect_vms_ids (vms : list virtual_machine) (names : list string)
    (acc : list Z) (left : list string) (ids : list Z) :
  collect_vms vms names acc = Returned (left, ids) ->
  ids = acc ++ (vm_id <$> vms).
Proof.
  revert names acc. induction vms as [|vm vms IH]; intros names acc; simpl.
  - intros [= _ <-]. by rewrite app_nil_r.
  - destruct (list_remove (vm_name vm) names) as [names'|e]; [|done].
    intros H. apply IH in H. by rewrite H, <- app_assoc.
Qed.

Lemma collect_vms_raises (vms : list virtual_machine) (names : list string)
    (acc : list Z) (e : exn) :
  collect_vms vms names acc = Raised e ->
  e = ValueError "list.remove(x): x not in list".
Proof.
  revert names acc. induction vms as [|vm vms IH]; intros names acc; simpl; [done|].
  destruct (list_remove (vm_name vm) names) as [names'|e'] eqn:Hr.
  - apply IH.
  - intros [= <-]. by apply list_remove_raises in Hr.
Qed.

Lemma find_parent_unknown (name : string) (result : list source_node) (p : Z) :
  Forall (fun s => name <> src_endpoint s /\ name <> src_name s) result ->
  find_parent name result p = p.
Proof.
  induction 1 as [|s l [H1 H2] Hl IH]; simpl; [done|].
  unfold str_in. simpl.
  destruct (String.eqb_spec name (src_endpoint s)); [done|].
  destruct (String.eqb_spec name (src_name s)); [done|]. simpl. done.
Qed.

(** C4, as the code has it: for a name that no registered root source
    carries, the resolver logs the condition and still issues the listing
    call, with the sentinel -1 as parent; whenever it returns, the parent id is
    -1 and the child ids are those of the machines that listing answered,
    none when the listing raised an [APIException]. *)
Theorem unknown_vcenter_still_lists (w : world) (name vcenter : string)
    (vm_list : list string) (tr tr0 : list event) (h : client)
    (result : list source_node) :
  run w (_get_client name) tr = (Returned (Some h), tr0) ->
  w (tr0 ++ [Logged INFO "Fetching Vcenter and Vm ids"])
    (sdk h (list_protection_sources_root_nodes (Some K_VMWARE) None))
  = Returned result ->
  Forall (fun s => vcenter <> src_endpoint s /\ vcenter <> src_name s) result ->
  let tr2 :=
    tr0 ++ [Logged INFO "Fetching Vcenter and Vm ids";
            Did (sdk h (list_protection_sources_root_nodes (Some K_VMWARE) None));
            Logged ERROR ("Vcenter " +:+ vcenter +:+
                          " not available in the cluster")] in
  exists out more,
    run w (_get_vmware_source_ids name vcenter vm_list) tr
    = (out, tr2 ++ Did (sdk h (list_virtual_machines (-1) vm_list)) :: more) /\
    forall parent_id ids, out = Returned (parent_id, ids) ->
      parent_id = -1 /\
      match w tr2 (sdk h (list_virtual_machines (-1) vm_list)) with
      | Returned vms => ids = vm_id <$> vms
      | Raised _ => ids = []
      end.
Proof.
  intros Hc Hr Hunknown tr2. subst tr2.
  unfold _get_vmware_source_ids. steps.
  rewrite (find_parent_unknown _ _ _ Hunknown). change (-1 =? -1) with true.
  destruct (w _ (sdk h (list_virtual_machines (-1) vm_list))) as [vms|e] eqn:Hl.
  - steps.
    destruct (collect_vms vms vm_list []) as [[left ids]|e] eqn:Hcol.
    + norm. apply collect_vms_ids in Hcol. simpl in Hcol. subst ids.
      destruct left as [|x left]; repeat step; eexists _, _; norm;
        (split; [reflexivity|]); by intros p ids [= <- <-].
    + apply collect_vms_raises in Hcol as ->. norm.
      eexists _, _. norm. split; [reflexivity|]. intros p ids [=].
  - steps.
    destruct e; repeat step; eexists _, _; norm; (split; [reflexivity|]);
      intros p ids [=]; by subst.
Qed.

Lemma unknown_vcenter_still_lists_witness :
  let w := serve site in
  let tr2 :=
    [Did (master_config "/etc/salt/master");
     Did (CohesityClient "10.2.0.10" "admin" "secret" "LOCAL");
     Logged INFO "Fetching Vcenter and Vm ids";
     Did (sdk 1%nat (list_protection_sources_root_nodes (Some K_VMWARE) None));
     Logged ERROR "Vcenter vc9 not available in the cluster"] in
  exists out more,
    run w (_get_vmware_source_ids module_name "vc9" ["vm1"]) []
    = (out, tr2 ++ Did (sdk 1%nat (list_virtual_machines (-1) ["vm1"])) :: more) /\
    forall parent_id ids, out = Returned (parent_id, ids) ->
      parent_id = -1 /\
      match w tr2 (sdk 1%nat (list_virtual_machines (-1) ["vm1"])) with
      | Returned vms => ids = vm_id <$> vms
      | Raised _ => ids = []
      end.
Proof.
  apply (unknown_vcenter_still_lists (serve site) module_name "vc9" ["vm1"] []
           [Did (master_config "/etc/salt/master");
            Did (CohesityClient "10.2.0.10" "admin" "secret" "LOCAL")]
           1%nat (roots site)).
  - reflexivity.
  - reflexivity.
  - repeat constructor; done.
Defined.

(** C4 as stated fails on its second half: ["vc9"] is not registered, the
    parent id stays -1, and the machines are listed all the same, under
    vCenter -1. *)
Lemma unknown_vcenter_listing_issued :
  run (serve site) (_get_vmware_source_ids module_name "vc9" ["vm1"]) []
  = (Returned (-1, []),
     [Did (master_config "/etc/salt/master");
      Did (CohesityClient "10.2.0.10" "admin" "secret" "LOCAL");
      Logged INFO "Fetching Vcenter and Vm ids";
      Did (sdk 1%nat (list_protection_sources_root_nodes (Some "kVMware") None));
      Logged ERROR "Vcenter vc9 not available in the cluster";
      Did (sdk 1%nat (list_virtual_machines (-1) ["vm1"]));
      Logged ERROR
        ("Following list of vms 'vm1' are not available in vcenter, " +:+
         "please make sure the virtual machine names are correct")])
  /\ Forall (fun s => "vc9" <> src_endpoint s /\ "vc9" <> src_name s) (roots site).
Proof. split; [reflexivity|repeat constructor; done]. Qed.

(** * Updating the members of a job *)

Lemma add_source_ids_elem (new l : list Z) (x : Z) :
  x ∈ add_source_ids new l <-> x ∈ l \/ x ∈ new.
Proof.
  revert l. induction new as [|y new IH]; intros l; simpl.
  - rewrite elem_of_nil. tauto.
  - rewrite IH, elem_of_cons. case_bool_decide as Hy.
    + split; [tauto|]. intros [?|[->|?]]; tauto.
    + rewrite elem_of_app, list_elem_of_singleton. tauto.
Qed.

Lemma add_source_ids_NoDup (new l : list Z) :
  NoDup l -> NoDup (add_source_ids new l).
Proof.
  revert l. induction new as [|y new IH]; intros l Hl; simpl; [done|].
  apply IH. case_bool_decide as Hy; [done|].
  apply NoDup_app. split; [done|]. split; [|apply NoDup_singleton].
  intros x Hx ->%list_elem_of_singleton. done.
Qed.

Lemma add_source_ids_extends (new l : list Z) :
  exists k, add_source_ids new l = l ++ k.
Proof.
  revert l. induction new as [|y new IH]; intros l; simpl.
  - exists []. by rewrite app_nil_r.
  - case_bool_decide; [apply IH|].
    destruct (IH (l ++ [y])) as [k ->]. exists (y :: k). by rewrite <- app_assoc.
Qed.

Lemma run_update (w : world) (name job_name vcenter sources : string)
    (replace_existing : bool) (tr tr0 tr1 : list event) (h : client)
    (job : protection_job) (others : list protection_job) (p : Z) (new : list Z) :
  run w (_get_client name) tr = (Returned (Some h), tr0) ->
  w tr0 (sdk h (get_protection_jobs job_name false)) = Returned (job :: others) ->
  run w (_get_vmware_source_ids name vcenter (split "," sources))
    (tr0 ++ [Did (sdk h (get_protection_jobs job_name false))])
  = (Returned (p, new), tr1) ->
  let submitted :=
    add_source_ids new (if replace_existing then [] else pj_source_ids job) in
  let request :=
    sdk h (update_protection_job (set_source_ids job submitted) (pj_id job)) in
  run w (update_vmware_protection_job name job_name vcenter sources
           replace_existing) tr
  = (match w tr1 request with
     | Returned _ =>
         Returned ("Successfully Updated ProtectionGroup: " +:+ pj_name job)
     | Raised (APIException m) =>
         Returned ("Error updating job " +:+ job_name +:+ " " +:+ m)
     | Raised e => Raised e
     end, tr1 ++ [Did request]).
Proof.
  intros Hc Hj Hr submitted request. subst submitted request.
  unfold update_vmware_protection_job. steps.
  cbn [set_source_ids pj_source_ids pj_id pj_name].
  destruct (w tr1 _) as [[]|e]; [done|]. by destruct e.
Qed.





(** * Job operations *)

Lemma str_in_spec (x : string) (l : list string) :
  str_in x l = true <-> x ∈ l.
Proof.
  unfold str_in. rewrite existsb_exists. split.
  - intros (y & Hy & ->%String.eqb_eq). by apply list_elem_of_In.
  - intros Hx. exists x. split; [by apply list_elem_of_In|apply String.eqb_refl].
Qed.

Lemma assign_job_id_first {V : Type} (bound : Z -> V) (job_name : string)
    (before after : list protection_job) (job : protection_job) (v : V) :
  Forall (fun j => pj_name j <> job_name) before ->
  pj_name job = job_name ->
  assign_job_id bound job_name (before ++ job :: after) v = bound (pj_id job).
Proof.
  intros Hb Hj. induction Hb as [|j before Hn Hb IH]; simpl.
  - by rewrite Hj, String.eqb_refl.
  - destruct (String.eqb_spec (pj_name j) job_name); [done|exact IH].
Qed.

Lemma match_nonempty {A B : Type} (l : list A) (x y : B) :
  l <> [] -> match l with [] => x | _ :: _ => y end = y.
Proof. by destruct l. Qed.

Lemma app_cons_nonempty {A : Type} (before after : list A) (a : A) :
  before ++ a :: after <> [].
Proof. by destruct before. Qed.

(** The last call of an operation: whatever it answers, the trace is the same. *)
Ltac finish_call :=
  match goal with
  | |- context [match ?w ?t (sdk ?h ?r) with _ => _ end] =>
      let e := fresh "e" in
      destruct (w t (sdk h r)) as [?|e]; [done|by destruct e]
  end.

Section Jobs.

Context (w : world) (name job_name : string) (tr tr0 : list event) (h : client).
Hypothesis Hc : run w (_get_client name) tr = (Returned (Some h), tr0).

Let lookup : effect := sdk h (get_protection_jobs job_name false).

Lemma update_no_job (vcenter sources : string) (replace_existing : bool) :
  w tr0 lookup = Returned [] ->
  run w (update_vmware_protection_job name job_name vcenter sources
           replace_existing) tr
  = (Returned ("Job with name " +:+ job_name +:+ " not available"),
     tr0 ++ [Did lookup]).
Proof. intros Hj. unfold update_vmware_protection_job, lookup in *. by steps. Qed.

Lemma state_no_job (state : string) :
  w tr0 lookup = Returned [] ->
  run w (update_vmware_protection_job_state name job_name state) tr
  = (Returned ("Job with name " +:+ job_name +:+ " not available."),
     tr0 ++ [Did lookup]).
Proof. intros Hj. unfold update_vmware_protection_job_state, lookup in *. by steps. Qed.

Lemma cancel_no_job :
  w tr0 lookup = Returned [] ->
  run w (cancel_vmware_protection_job name job_name) tr
  = (Returned ("Job with name " +:+ job_name +:+ " not available."),
     tr0 ++ [Did lookup]).
Proof. intros Hj. unfold cancel_vmware_protection_job, lookup in *. by steps. Qed.

Lemma run_no_job :
  w tr0 lookup = Returned [] ->
  run w (run_vmware_protection_job name job_name) tr
  = (Returned ("Job with name " +:+ job_name +:+ " not available."),
     tr0 ++ [Did lookup]).
Proof. intros Hj. unfold run_vmware_protection_job, lookup in *. by steps. Qed.

Lemma delete_no_job (delete_snapshots : bool) :
  w tr0 lookup = Returned [] ->
  run w (delete_vmware_protection_job name job_name delete_snapshots) tr
  = (Returned ("Job with name " +:+ job_name +:+ " not available."),
     tr0 ++ [Did lookup]).
Proof. intros Hj. unfold delete_vmware_protection_job, lookup in *. by steps. Qed.

Context (before after : list protection_job) (job : protection_job).
Hypothesis Hj : w tr0 lookup = Returned (before ++ job :: after).
Hypothesis Hbefore : Forall (fun j => pj_name j <> job_name) before.
Hypothesis Hname : pj_name job = job_name.
Hypothesis Hid : pj_id job <> 0.

Lemma run_first_match :
  (run w (run_vmware_protection_job name job_name) tr).2
  = tr0 ++ [Did lookup; Did (sdk h (create_run_protection_job (pj_id job)))].
Proof.
  unfold run_vmware_protection_job, lookup in *. steps.
  rewrite match_nonempty by apply app_cons_nonempty.
  rewrite (assign_job_id_first _ _ _ _ _ _ Hbefore Hname).
  apply Z.eqb_neq in Hid. rewrite Hid. steps.
  finish_call.
Qed.

Lemma delete_first_match (delete_snapshots : bool) :
  (run w (delete_vmware_protection_job name job_name delete_snapshots) tr).2
  = tr0 ++ [Did lookup;
            Did (sdk h (delete_protection_job (pj_id job) delete_snapshots))].
Proof.
  unfold delete_vmware_protection_job, lookup in *. steps.
  rewrite match_nonempty by apply app_cons_nonempty.
  rewrite (assign_job_id_first _ _ _ _ _ _ Hbefore Hname).
  cbn [read]. steps.
  apply Z.eqb_neq in Hid. rewrite Hid. steps.
  finish_call.
Qed.

Lemma state_first_match (state : string) :
  state ∈ supported_states ->
  (run w (update_vmware_protection_job_state name job_name state) tr).2
  = tr0 ++ [Did lookup;
            Did (sdk h (update_protection_jobs_state
                          {| st_action := "k" +:+ capitalize state;
                             st_job_ids := [pj_id job] |}))].
Proof.
  intros Hs%str_in_spec.
  unfold update_vmware_protection_job_state, lookup in *. steps.
  rewrite match_nonempty by apply app_cons_nonempty.
  rewrite (assign_job_id_first _ _ _ _ _ _ Hbefore Hname).
  rewrite Hs. cbn [negb read]. steps.
  finish_call.
Qed.

Lemma cancel_first_match :
  exists more,
    (run w (cancel_vmware_protection_job name job_name) tr).2
    = tr0 ++ Did lookup :: Did (sdk h (get_protection_runs (pj_id job))) :: more
    /\ (more = [] \/
        exists run_id, more = [Did (sdk h (create_cancel_protection_job_run
                                             (pj_id job) run_id))]).
Proof.
  unfold cancel_vmware_protection_job, lookup in *. steps.
  rewrite match_nonempty by apply app_cons_nonempty.
  rewrite (assign_job_id_first _ _ _ _ _ _ Hbefore Hname).
  cbn [read]. steps.
  apply Z.eqb_neq in Hid. rewrite Hid. steps.
  destruct (w _ (sdk h (get_protection_runs _))) as [[|latest runs]|e].
  - exists []. norm. by split; [|left].
  - destruct (str_in (run_status latest) _) eqn:Hst; cbn [negb].
    + steps. exists [Did (sdk h (create_cancel_protection_job_run (pj_id job)
                                   (run_job_run_id latest)))].
      split; [|right; by eexists].
      finish_call.
    + exists []. norm. by split; [|left].
  - exists []. split; [|by left]. by destruct e.
Qed.

End Jobs.

Ltac apply_only_call :=
  match goal with
  | |- only ?P (call ?c ?r) => apply (only_call P c r)
  end.

(** C5, as the code has it: every mutating job operation first asks for the
    non-deleted jobs of the given name; when the answer is empty it returns
    the not-available message and calls nothing else; when the answer holds
    jobs, state change, cancel, run and delete act on the first job whose name
    is exactly the requested one, whatever follows it in the answer. *)
Theorem job_operations_resolve_by_name (w : world) (name job_name : string)
    (tr tr0 : list event) (h : client) :
  run w (_get_client name) tr = (Returned (Some h), tr0) ->
  let lookup := sdk h (get_protection_jobs job_name false) in
  (w tr0 lookup = Returned [] ->
   forall (vcenter sources state : string) (replace_existing delete_snapshots : bool),
     let gone := (Returned ("Job with name " +:+ job_name +:+ " not available."),
                  tr0 ++ [Did lookup]) in
     run w (update_vmware_protection_job name job_name vcenter sources
              replace_existing) tr
     = (Returned ("Job with name " +:+ job_name +:+ " not available"),
        tr0 ++ [Did lookup]) /\
     run w (update_vmware_protection_job_state name job_name state) tr = gone /\
     run w (cancel_vmware_protection_job name job_name) tr = gone /\
     run w (run_vmware_protection_job name job_name) tr = gone /\
     run w (delete_vmware_protection_job name job_name delete_snapshots) tr = gone)
  /\
  (forall (before after : list protection_job) (job : protection_job),
     w tr0 lookup = Returned (before ++ job :: after) ->
     Forall (fun j => pj_name j <> job_name) before ->
     pj_name job = job_name ->
     pj_id job <> 0 ->
     (forall state, state ∈ supported_states ->
        (run w (update_vmware_protection_job_state name job_name state) tr).2
        = tr0 ++ [Did lookup;
                  Did (sdk h (update_protection_jobs_state
                                {| st_action := "k" +:+ capitalize state;
                                   st_job_ids := [pj_id job] |}))]) /\
     (exists more,
        (run w (cancel_vmware_protection_job name job_name) tr).2
        = tr0 ++ Did lookup :: Did (sdk h (get_protection_runs (pj_id job))) :: more
        /\ (more = [] \/
            exists run_id,
              more = [Did (sdk h (create_cancel_protection_job_run
                                    (pj_id job) run_id))])) /\
     (run w (run_vmware_protection_job name job_name) tr).2
     = tr0 ++ [Did lookup; Did (sdk h (create_run_protection_job (pj_id job)))] /\
     (forall delete_snapshots,
        (run w (delete_vmware_protection_job name job_name delete_snapshots) tr).2
        = tr0 ++ [Did lookup;
                  Did (sdk h (delete_protection_job (pj_id job) delete_snapshots))])).
Proof.
  intros Hc lookup. split.
  - intros Hj vcenter sources state replace_existing delete_snapshots gone.
    repeat split.
    + by apply update_no_job.
    + by apply state_no_job.
    + by apply cancel_no_job.
    + by apply run_no_job.
    + by apply delete_no_job.
  - intros before after job Hj Hbefore Hname Hid. repeat split.
    + intros state. by apply (state_first_match w name job_name tr tr0 h Hc before after).
    + by apply (cancel_first_match w name job_name tr tr0 h Hc before after).
    + by apply (run_first_match w name job_name tr tr0 h Hc before after).
    + intros ds. by apply (delete_first_match w name job_name tr tr0 h Hc before after).
Qed.

Lemma job_operations_resolve_by_name_witness :
  run (serve site) (delete_vmware_protection_job module_name "nightly" true) []
  = (Returned "Job with name nightly not available.",
     [Did (master_config "/etc/salt/master");
      Did (CohesityClient "10.2.0.10" "admin" "secret" "LOCAL");
      Did (sdk 1%nat (get_protection_jobs "nightly" false))])
  /\ (run (serve (with_jobs site [job_of 4 "nightly-old" [11];
                                  job_of 5 "nightly" [11];
                                  job_of 9 "nightly" [12]]))
        (run_vmware_protection_job module_name "nightly") []).2
     = [Did (master_config "/etc/salt/master");
        Did (CohesityClient "10.2.0.10" "admin" "secret" "LOCAL");
        Did (sdk 1%nat (get_protection_jobs "nightly" false));
        Did (sdk 1%nat (create_run_protection_job 5))].
Proof.
  split.
  - destruct (job_operations_resolve_by_name (serve site) module_name "nightly" []
                [Did (master_config "/etc/salt/master");
                 Did (CohesityClient "10.2.0.10" "admin" "secret" "LOCAL")]
                1%nat eq_refl) as [Hzero _].
    destruct (Hzero eq_refl "" "" "" true true) as (_ & _ & _ & _ & Hdelete).
    exact Hdelete.
  - destruct (job_operations_resolve_by_name
                (serve (with_jobs site [job_of 4 "nightly-old" [11];
                                        job_of 5 "nightly" [11];
                                        job_of 9 "nightly" [12]]))
                module_name "nightly" []
                [Did (master_config "/etc/salt/master");
                 Did (CohesityClient "10.2.0.10" "admin" "secret" "LOCAL")]
                1%nat eq_refl) as [_ Hfirst].
    destruct (Hfirst [job_of 4 "nightly-old" [11]] [job_of 9 "nightly" [12]]
                (job_of 5 "nightly" [11]) eq_refl) as (_ & _ & Hrun & _).
    + repeat constructor; done.
    + reflexivity.
    + done.
    + exact Hrun.
Defined.

(** C5 as stated fails on ambiguity: two jobs carry the requested name, and
    the run is started for the first instead of being refused. *)
Lemma ambiguous_job_name_runs_first :
  run (serve (with_jobs site [job_of 5 "nightly" [11]; job_of 9 "nightly" [12]]))
    (run_vmware_protection_job module_name "nightly") []
  = (Returned "Successfully started run for job nightly",
     [Did (master_config "/etc/salt/master");
      Did (CohesityClient "10.2.0.10" "admin" "secret" "LOCAL");
      Did (sdk 1%nat (get_protection_jobs "nightly" false));
      Did (sdk 1%nat (create_run_protection_job 5))]).
Proof. reflexivity. Qed.

Lemma only_state_unsupported (name job_name state : string) :
  state ∉ supported_states ->
  only no_state_change (update_vmware_protection_job_state name job_name state).
Proof.
  intros Hs. assert (Hin : str_in state supported_states = false).
  { destruct (str_in state supported_states) eqn:E; [|done].
    by apply str_in_spec in E. }
  unfold update_vmware_protection_job_state.
  apply only_try_except; [|intros e; constructor].
  apply only_bind.
  { apply only_get_client. intros e He.
    destruct e as [| |cl r]; simpl; try done. by destruct (He cl r). }
  intros c. apply only_bind.
  { apply_only_call. by intros. }
  intros [|job jobs]; [constructor|]. rewrite Hin. constructor.
Qed.

(** C6, as the code has it: with a state outside the supported ones the
    operation never submits a state change; it looks the job up first, and
    when the lookup answers a job it returns the unsupported-state message
    and calls nothing else. *)
Theorem unsupported_state_rejected (w : world) (name job_name state : string)
    (tr : list event) :
  state ∉ supported_states ->
  (Forall no_state_change tr ->
   Forall no_state_change
     (run w (update_vmware_protection_job_state name job_name state) tr).2)
  /\
  forall (tr0 : list event) (h : client) (job : protection_job)
         (others : list protection_job),
    run w (_get_client name) tr = (Returned (Some h), tr0) ->
    w tr0 (sdk h (get_protection_jobs job_name false)) = Returned (job :: others) ->
    run w (update_vmware_protection_job_state name job_name state) tr
    = (Returned ("Job state " +:+ state +:+
                 " not supported. Please provide one of the following states activate, deactivate, pause, resume"),
       tr0 ++ [Did (sdk h (get_protection_jobs job_name false))]).
Proof.
  intros Hs. split.
  - apply run_only. by apply only_state_unsupported.
  - intros tr0 h job others Hc Hj.
    assert (Hin : str_in state supported_states = false).
    { destruct (str_in state supported_states) eqn:E; [|done].
      by apply str_in_spec in E. }
    unfold update_vmware_protection_job_state. steps. rewrite Hin. done.
Qed.

Lemma unsupported_state_rejected_witness :
  run (serve (with_jobs site [job_of 5 "nightly" [11]]))
    (update_vmware_protection_job_state module_name "nightly" "stop") []
  = (Returned ("Job state stop not supported. Please provide one of the " +:+
               "following states activate, deactivate, pause, resume"),
     [Did (master_config "/etc/salt/master");
      Did (CohesityClient "10.2.0.10" "admin" "secret" "LOCAL");
      Did (sdk 1%nat (get_protection_jobs "nightly" false))]).
Proof.
  assert (Hs : "stop" ∉ supported_states).
  { unfold supported_states. intros Hin. repeat (apply elem_of_cons in Hin as [Hin|Hin]; [done|]).
    by apply elem_of_nil in Hin. }
  destruct (unsupported_state_rejected
              (serve (with_jobs site [job_of 5 "nightly" [11]]))
              module_name "nightly" "stop" [] Hs) as [_ Hmsg].
  exact (Hmsg [Did (master_config "/etc/salt/master");
               Did (CohesityClient "10.2.0.10" "admin" "secret" "LOCAL")]
           1%nat (job_of 5 "nightly" [11]) [] eq_refl eq_refl).
Defined.

(** C6 as stated fails: the job lookup is a network call and comes first;
    when it answers no job, the message is the not-available one. *)
Lemma unsupported_state_looks_job_up_first :
  run (serve site) (update_vmware_protection_job_state module_name "nightly" "stop") []
  = (Returned "Job with name nightly not available.",
     [Did (master_config "/etc/salt/master");
      Did (CohesityClient "10.2.0.10" "admin" "secret" "LOCAL");
      Did (sdk 1%nat (get_protection_jobs "nightly" false))])
  /\ "stop" ∉ supported_states.
Proof.
  split; [reflexivity|].
  unfold supported_states. intros Hin.
  repeat (apply elem_of_cons in Hin as [Hin|Hin]; [done|]).
  by apply elem_of_nil in Hin.
Qed.

(** * Creating a job without policy or storage domain *)

Lemma run_get_policy_id_none (w : world) (name policy : string)
    (tr tr0 : list event) (h : client) :
  run w (_get_client name) tr = (Returned (Some h), tr0) ->
  w (tr0 ++ [Logged INFO ("Getting policy with name " +:+ policy)])
    (sdk h (get_protection_policies policy)) = Returned [] ->
  run w (_get_policy_id name policy) tr
  = (Returned None,
     tr0 ++ [Logged INFO ("Getting policy with name " +:+ policy);
             Did (sdk h (get_protection_policies policy))]).
Proof. intros Hc Hp. unfold _get_policy_id. by steps. Qed.

Lemma run_get_sd_id_none (w : world) (name domain : string)
    (tr tr0 : list event) (h : client) :
  run w (_get_client name) tr = (Returned (Some h), tr0) ->
  w (tr0 ++ [Logged INFO ("Getting storage domain with name " +:+ domain)])
    (sdk h (get_view_boxes domain)) = Returned [] ->
  run w (_get_sd_id name domain) tr
  = (Returned None,
     tr0 ++ [Logged INFO ("Getting storage domain with name " +:+ domain);
             Did (sdk h (get_view_boxes domain))]).
Proof. intros Hc Hp. unfold _get_sd_id. by steps. Qed.



(** * The source-tree traversal *)

Lemma weight_node (n : tree_node) :
  weight n = S (forest_weight (node_nodes n)).
Proof.
  destruct n as [i s t l]. simpl. f_equal.
  all: try (induction l as [|x l IH]; simpl; [done|]; by rewrite IH).
Qed.

Lemma forest_weight_app (l k : list tree_node) :
  forest_weight (l ++ k) = (forest_weight l + forest_weight k)%nat.
Proof. induction l as [|x l IH]; simpl; [done|]. rewrite IH. lia. Qed.

(** The traversal never runs out of steps: any fuel from the weight of the
    pending nodes on gives the same result. *)
Lemma walk_nodes_fuel (fuel1 fuel2 : nat) (visited pending : list tree_node)
    (source_type name : string) :
  (forest_weight pending <= fuel1)%nat ->
  (forest_weight pending <= fuel2)%nat ->
  walk_nodes fuel1 visited pending source_type name
  = walk_nodes fuel2 visited pending source_type name.
Proof.
  revert fuel2 visited pending.
  induction fuel1 as [|fuel1 IH]; intros fuel2 visited pending H1 H2.
  - destruct pending as [|node rest].
    + destruct fuel2; simpl; by rewrite ?app_nil_r.
    + simpl in H1. rewrite weight_node in H1. lia.
  - destruct pending as [|node rest].
    + destruct fuel2; simpl; by rewrite ?app_nil_r.
    + destruct fuel2 as [|fuel2].
      { simpl in H2. rewrite weight_node in H2. lia. }
      simpl in H1, H2. rewrite weight_node in H1, H2. simpl.
      destruct (node_nodes node) as [|child children] eqn:Hn.
      * destruct (String.eqb (node_type node) source_type);
          [|apply IH; simpl in *; lia].
        destruct (String.eqb name ""); [done|].
        destruct (String.eqb name (node_name node)); [done|].
        apply IH; simpl in *; lia.
      * apply IH; rewrite forest_weight_app; simpl in *; lia.
Qed.

(** * What a restore searches for *)

Lemma index0_str_first (vm_names s : string) :
  index0_str vm_names = Returned s -> first_character vm_names s.
Proof. destruct vm_names as [|c rest]; [done|]. intros [= <-]. by exists c, rest. Qed.

Section Aside.

Context (P : event -> Prop).
Hypothesis HP : forall ev, aside ev -> P ev.

Lemma only_get_client_aside (name : string) : only P (_get_client name).
Proof.
  apply only_get_client. intros e He. apply HP.
  destruct e as [| |cl r]; simpl; try done. by destruct (He cl r).
Qed.

Lemma only_get_vmware_source_ids (name vcenter : string) (vm_list : list string) :
  only P (_get_vmware_source_ids name vcenter vm_list).
Proof.
  unfold _get_vmware_source_ids.
  apply only_bind; [apply only_get_client_aside|]. intros c.
  apply only_bind; [apply only_log; by apply HP|]. intros _.
  apply only_try_except.
  - apply only_bind; [apply_only_call; intros; by apply HP|]. intros result.
    apply only_bind.
    { destruct (_ =? _); [apply only_log; by apply HP|constructor]. }
    intros _. apply only_bind; [apply_only_call; intros; by apply HP|].
    intros vms. apply only_bind; [apply only_lift|]. intros [left ids].
    apply only_bind; [|intros; constructor].
    destruct left; [constructor|apply only_log; by apply HP].
  - intros e. apply only_bind; [apply only_log; by apply HP|]. intros; constructor.
Qed.

Lemma only_fetch_source_objects (source_objects : list source_object)
    (source_type name : string) :
  only P (_fetch_source_objects source_objects source_type name).
Proof.
  unfold _fetch_source_objects. apply only_try_except; [|intros; constructor].
  destruct source_objects as [|first others]; [constructor|].
  destruct (walk_nodes _ _ _ _ _). constructor.
Qed.

End Aside.

Lemma only_recover_latest (c : option client) (task_name vm_names : string)
    (source_id : list Z) (prefix suffix : string) (powered_on : bool)
    (l : list object_snapshot) :
  only (uses_first_character vm_names)
    (recover_latest c task_name vm_names source_id prefix suffix powered_on l).
Proof.
  unfold recover_latest.
  apply only_bind; [apply only_lift|]. intros st.
  apply only_bind; [apply only_read|]. intros job_id.
  apply only_bind; [apply only_read|]. intros job_run_id.
  apply only_bind; [apply only_lift|]. intros sid.
  apply only_bind_lift. intros sourceName Hs%index0_str_first.
  apply only_bind; [apply only_read|]. intros t_stamp.
  apply only_bind; [|intros; constructor].
  apply_only_call. intros h _. simpl. by constructor.
Qed.


(** With ["vm1,vm2"] the search term and the source name are ["v"]. *)
Example restore_vms_searches_v :
  (run (serve (with_snapshots site [snapshot_of 1 10 500]))
     (restore_vms module_name "task" "vc1" "vm1,vm2" "" "" "" "" true) []).2
  = [Did (master_config "/etc/salt/master");
     Did (CohesityClient "10.2.0.10" "admin" "secret" "LOCAL");
     Did (master_config "/etc/salt/master");
     Did (CohesityClient "10.2.0.10" "admin" "secret" "LOCAL");
     Logged INFO "Fetching Vcenter and Vm ids";
     Did (sdk 3%nat (list_protection_sources_root_nodes (Some "kVMware") None));
     Did (sdk 3%nat (list_virtual_machines 7 ["vm1"; "vm2"]));
     Did (sdk 1%nat (list_protection_sources 7 true
                       ["kHostSystem"; "kVirtualMachine"] "kVMware"));
     Did (sdk 1%nat (search_objects "v" "kVMware" 7));
     Did (sdk 1%nat (create_recover_task
            (recover_request "task" "" "" true
               (restore_object_of (snapshot_of 1 10 500)
                  {| started_time_usecs := 500; ver_job_run_id := 10 |}
                  11 "v"))))].
Proof. reflexivity. Qed.

(** * Further properties of the module *)

Lemma only_mono {A : Type} (P Q : event -> Prop) (p : prog A) :
  (forall ev, P ev -> Q ev) -> only P p -> only Q p.
Proof. intros HPQ. induction 1; constructor; auto. Qed.

Lemma only_calls_get_client (allowed : request -> Prop) (name : string) : only (calls allowed) (_get_client name).
Proof. apply only_get_client. intros e He. destruct e as [| |cl r]; simpl; try done. by destruct (He cl r). Qed.

Lemma only_calls_call (allowed : request -> Prop) (c : option client) (r : request) :
  allowed r -> only (calls allowed) (call c r).
Proof. intros Hr. apply (only_call _ c r). by intros. Qed.

Lemma only_calls_log (allowed : request -> Prop) (l : level) (m : string) :
  only (calls allowed) (Log l m (Ret tt)).
Proof. by apply only_log. Qed.

Ltac calls_call :=
  match goal with
  | |- only (calls ?a) (call ?c ?r) => apply (only_calls_call a c r)
  end.

Lemma only_calls_resolver (allowed : request -> Prop) (name vcenter : string) (vm_list : list string) :
  (forall r, is_listing r -> allowed r) ->
  only (calls allowed) (_get_vmware_source_ids name vcenter vm_list).
Proof.
  intros Hl. unfold _get_vmware_source_ids.
  apply only_bind; [apply only_calls_get_client|]. intros c.
  apply only_bind; [apply only_calls_log|]. intros _.
  apply only_try_except.
  - apply only_bind; [calls_call; by apply Hl|]. intros result.
    apply only_bind.
    { destruct (_ =? _); [apply only_calls_log|constructor]. }
    intros _. apply only_bind; [calls_call; by apply Hl|].
    intros vms. apply only_bind; [apply only_lift|]. intros [left ids].
    apply only_bind; [|intros; constructor].
    destruct left; [constructor|apply only_calls_log].
  - intros e. apply only_bind; [apply only_calls_log|]. intros; constructor.
Qed.

Lemma only_calls_policy (allowed : request -> Prop) (name policy : string) :
  allowed (get_protection_policies policy) ->
  only (calls allowed) (_get_policy_id name policy).
Proof.
  intros Hp. unfold _get_policy_id.
  apply only_bind; [apply only_calls_get_client|]. intros c.
  apply only_bind; [apply only_calls_log|]. intros _.
  apply only_bind; [calls_call; done|]. intros [|p l]; constructor.
Qed.

Lemma only_calls_sd (allowed : request -> Prop) (name domain : string) :
  allowed (get_view_boxes domain) ->
  only (calls allowed) (_get_sd_id name domain).
Proof.
  intros Hp. unfold _get_sd_id.
  apply only_bind; [apply only_calls_get_client|]. intros c.
  apply only_bind; [apply only_calls_log|]. intros _.
  apply only_bind; [calls_call; done|]. intros [|p l]; constructor.
Qed.

(** X1: whatever the cluster answers, [create_vmware_protection_job] asks
    only for the jobs of its name, the policy, the storage domain and the
    source listings; a job it submits carries the given name, a parent other
    than -1, at least one member and [pause = True]; a state change it
    submits is a pause. *)
Theorem create_footprint (w : world)
    (name job_name vcenter sources policy domain timezone description : string)
    (pause_job : bool) :
  Forall (calls (create_request job_name policy domain))
    (run w (create_vmware_protection_job name job_name vcenter sources policy
              domain pause_job timezone description) []).2.
Proof.
  apply run_only; [|constructor].
  unfold create_vmware_protection_job.
  apply only_try_except; [|intros; constructor].
  apply only_bind; [apply only_calls_get_client|]. intros c.
  apply only_bind; [calls_call; done|]. intros resp.
  destruct (match resp with [] => _ | _ => _ end); [constructor|].
  apply only_bind; [by apply only_calls_policy|]. intros pid.
  apply only_bind; [by apply only_calls_sd|]. intros vb.
  apply only_bind; [apply only_calls_resolver; by intros []|]. intros [parent ids].
  destruct (Z.eqb_spec parent (-1)) as [|Hp]; [constructor|].
  destruct ids as [|sid sids]; [constructor|]. cbn [length Nat.eqb].
  apply only_bind; [calls_call; done|]. intros created.
  apply only_bind; [|intros; constructor].
  destruct pause_job; [calls_call; done|constructor].
Qed.

Ltac remit := simpl; auto.

Lemma only_calls_fetch (allowed : request -> Prop)
    (source_objects : list source_object) (source_type name : string) :
  only (calls allowed) (_fetch_source_objects source_objects source_type name).
Proof.
  unfold _fetch_source_objects. apply only_try_except; [|intros; constructor].
  destruct source_objects as [|first others]; [constructor|].
  destruct (walk_nodes _ _ _ _ _). constructor.
Qed.

Lemma only_calls_recover_latest (allowed : request -> Prop) (c : option client)
    (task_name vm_names : string) (source_id : list Z) (prefix suffix : string)
    (powered_on : bool) (l : list object_snapshot) :
  (forall body, allowed (create_recover_task body)) ->
  only (calls allowed)
    (recover_latest c task_name vm_names source_id prefix suffix powered_on l).
Proof.
  intros Ha. unfold recover_latest.
  apply only_bind; [apply only_lift|]. intros st.
  apply only_bind; [apply only_read|]. intros job_id.
  apply only_bind; [apply only_read|]. intros job_run_id.
  apply only_bind; [apply only_lift|]. intros sid.
  apply only_bind; [apply only_lift|]. intros sourceName.
  apply only_bind; [apply only_read|]. intros t_stamp.
  apply only_bind; [|intros; constructor]. calls_call. apply Ha.
Qed.

Section Remit.

Context (w : world) (name : string).

Lemma register_remit (vcenter username password : string) :
  only (within_remit Register) (register_vcenter name vcenter username password).
Proof.
  unfold register_vcenter, within_remit.
  apply only_try_except.
  - apply only_bind; [apply only_calls_get_client|]. intros c.
    apply only_bind; [calls_call; remit|]. intros existing.
    destruct (existsb _ _); [constructor|].
    apply only_bind; [calls_call; remit|]. intros; constructor.
  - intros e. apply only_bind; [apply only_calls_log|]. intros; constructor.
Qed.

Lemma create_remit (job_name vcenter sources policy domain timezone description : string)
    (pause_job : bool) :
  only (within_remit Create)
    (create_vmware_protection_job name job_name vcenter sources policy domain
       pause_job timezone description).
Proof.
  unfold create_vmware_protection_job, within_remit.
  apply only_try_except; [|intros; constructor].
  apply only_bind; [apply only_calls_get_client|]. intros c.
  apply only_bind; [calls_call; remit|]. intros resp.
  destruct (match resp with [] => _ | _ => _ end); [constructor|].
  apply only_bind; [apply only_calls_policy; remit|]. intros pid.
  apply only_bind; [apply only_calls_sd; remit|]. intros vb.
  apply only_bind; [apply only_calls_resolver; intros []; remit|]. intros [parent ids].
  destruct (parent =? -1); [constructor|].
  destruct (_ =? _)%nat; [constructor|].
  apply only_bind; [calls_call; remit|]. intros created.
  apply only_bind; [|intros; constructor].
  destruct pause_job; [calls_call; remit|constructor].
Qed.

Lemma update_remit (job_name vcenter sources : string) (replace_existing : bool) :
  only (within_remit Update)
    (update_vmware_protection_job name job_name vcenter sources replace_existing).
Proof.
  unfold update_vmware_protection_job, within_remit.
  apply only_try_except; [|intros; constructor].
  apply only_bind; [apply only_calls_get_client|]. intros c.
  apply only_bind; [calls_call; remit|]. intros [|body others]; [constructor|].
  apply only_bind; [apply only_calls_resolver; intros []; remit|]. intros [parent ids].
  apply only_bind; [calls_call; remit|]. intros; constructor.
Qed.

Lemma state_remit (job_name state : string) :
  only (within_remit ChangeState)
    (update_vmware_protection_job_state name job_name state).
Proof.
  unfold update_vmware_protection_job_state, within_remit.
  apply only_try_except; [|intros; constructor].
  apply only_bind; [apply only_calls_get_client|]. intros c.
  apply only_bind; [calls_call; remit|]. intros [|job jobs]; [constructor|].
  destruct (negb _); [constructor|].
  apply only_bind; [apply only_read|]. intros job_id.
  apply only_bind; [calls_call; remit|]. intros; constructor.
Qed.

Lemma cancel_remit (job_name : string) :
  only (within_remit Cancel) (cancel_vmware_protection_job name job_name).
Proof.
  unfold cancel_vmware_protection_job, within_remit.
  apply only_try_except; [|intros; constructor].
  apply only_bind; [apply only_calls_get_client|]. intros c.
  apply only_bind; [calls_call; remit|]. intros [|job jobs]; [constructor|].
  apply only_bind; [apply only_read|]. intros job_id.
  destruct (job_id =? 0); [constructor|].
  apply only_bind; [calls_call; remit|]. intros [|latest runs]; [constructor|].
  destruct (negb _); [constructor|].
  apply only_bind; [calls_call; remit|]. intros; constructor.
Qed.

Lemma run_remit (job_name : string) :
  only (within_remit Run) (run_vmware_protection_job name job_name).
Proof.
  unfold run_vmware_protection_job, within_remit.
  apply only_try_except; [|intros; constructor].
  apply only_bind; [apply only_calls_get_client|]. intros c.
  apply only_bind; [calls_call; remit|]. intros [|job jobs]; [constructor|].
  destruct (assign_job_id _ _ _ _) as [job_id|]; [|constructor].
  destruct (job_id =? 0); [constructor|].
  apply only_bind; [calls_call; remit|]. intros; constructor.
Qed.

Lemma delete_remit (job_name : string) (delete_snapshots : bool) :
  only (within_remit Delete)
    (delete_vmware_protection_job name job_name delete_snapshots).
Proof.
  unfold delete_vmware_protection_job, within_remit.
  apply only_try_except; [|intros; constructor].
  apply only_bind; [apply only_calls_get_client|]. intros c.
  apply only_bind; [calls_call; remit|]. intros [|job jobs]; [constructor|].
  apply only_bind; [apply only_read|]. intros job_id.
  destruct (job_id =? 0); [constructor|].
  apply only_bind; [calls_call; remit|]. intros; constructor.
Qed.

Lemma restore_remit (task_name vcenter_name vm_names resource_pool
    datastore_name prefix suffix : string) (powered_on : bool) :
  only (within_remit Restore)
    (restore_vms name task_name vcenter_name vm_names resource_pool
       datastore_name prefix suffix powered_on).
Proof.
  unfold restore_vms, within_remit.
  apply only_try_except; [|intros; constructor].
  apply only_bind; [apply only_calls_get_client|]. intros c.
  apply only_bind; [apply only_calls_resolver; intros []; remit|]. intros [parent ids].
  apply only_bind; [calls_call; remit|]. intros source_objects.
  apply only_bind; [apply only_calls_fetch|]. intros [rp so1].
  apply only_bind; [apply only_calls_fetch|]. intros [ds so2].
  apply only_bind; [apply only_lift|]. intros search.
  apply only_bind; [calls_call; remit|]. intros resp.
  apply only_calls_recover_latest. intros; remit.
Qed.

End Remit.

(** X2: whatever the cluster answers, every operation only reads the cluster
    or makes the one kind of change it is there for: none deletes a job but
    [delete_vmware_protection_job], none submits a job but
    [create_vmware_protection_job], and so on. *)
Theorem operations_stay_within_remit (w : world) (name : string)
    (a b c d e f g : string) (x y : bool) :
  Forall (within_remit Register) (run w (register_vcenter name a b c) []).2 /\
  Forall (within_remit Create)
    (run w (create_vmware_protection_job name a b c d e x f g) []).2 /\
  Forall (within_remit Update)
    (run w (update_vmware_protection_job name a b c x) []).2 /\
  Forall (within_remit ChangeState)
    (run w (update_vmware_protection_job_state name a b) []).2 /\
  Forall (within_remit Cancel) (run w (cancel_vmware_protection_job name a) []).2 /\
  Forall (within_remit Run) (run w (run_vmware_protection_job name a) []).2 /\
  Forall (within_remit Delete) (run w (delete_vmware_protection_job name a x) []).2 /\
  Forall (within_remit Restore) (run w (restore_vms name a b c d e f g x) []).2.
Proof.
  repeat split; apply run_only; try constructor.
  - apply register_remit.
  - apply create_remit.
  - apply update_remit.
  - apply state_remit.
  - apply cancel_remit.
  - apply run_remit.
  - apply delete_remit.
  - apply restore_remit.
Qed.

Lemma supported_state_action (state : string) :
  state ∈ supported_states ->
  "k" +:+ capitalize state ∈ ["kActivate"; "kDeactivate"; "kPause"; "kResume"].
Proof.
  unfold supported_states. intros Hin.
  repeat (apply elem_of_cons in Hin as [->|Hin];
          [cbv; repeat first [apply list_elem_of_here | apply list_elem_of_further]|]).
  by apply elem_of_nil in Hin.
Qed.

(** X3: every state change that [update_vmware_protection_job_state] submits
    names one job and one of the four verbs kActivate, kDeactivate, kPause,
    kResume. *)
Theorem state_change_uses_protocol_verbs (w : world) (name job_name state : string) :
  Forall (calls state_change_request)
    (run w (update_vmware_protection_job_state name job_name state) []).2.
Proof.
  apply run_only; [|constructor].
  unfold update_vmware_protection_job_state.
  apply only_try_except; [|intros; constructor].
  apply only_bind; [apply only_calls_get_client|]. intros c.
  apply only_bind; [calls_call; done|]. intros [|job jobs]; [constructor|].
  destruct (str_in state supported_states) eqn:Hs; [|constructor].
  cbn [negb]. apply str_in_spec in Hs.
  apply only_bind; [apply only_read|]. intros job_id.
  apply only_bind; [|intros; constructor].
  calls_call. split; [by apply supported_state_action|done].
Qed.

Lemma split_pieces (sep : ascii) (s : string) :
  Forall (fun piece => sep ∉ String.list_ascii_of_string piece) (split sep s).
Proof.
  induction s as [|c rest IH]; simpl.
  - constructor; [|constructor]. by intros ?%elem_of_nil.
  - destruct (Ascii.eqb_spec c sep) as [->|Hc].
    + constructor; [|done]. by intros ?%elem_of_nil.
    + destruct (split sep rest) as [|piece pieces].
      * constructor; [|constructor]. simpl.
        intros [->|?%elem_of_nil]%elem_of_cons; done.
      * inversion IH as [|? ? Hp Hps]; subst. constructor; [|done]. simpl.
        intros [->|?]%elem_of_cons; done.
Qed.

(** X4: when the first job the lookup answers carries the requested name,
    [create_vmware_protection_job] returns the already-exists message and
    calls nothing else. *)
Theorem create_existing_job_refused (w : world)
    (name job_name vcenter sources policy domain timezone description : string)
    (pause_job : bool) (tr tr0 : list event) (h : client)
    (job : protection_job) (others : list protection_job) :
  run w (_get_client name) tr = (Returned (Some h), tr0) ->
  w tr0 (sdk h (get_protection_jobs job_name false)) = Returned (job :: others) ->
  pj_name job = job_name ->
  run w (create_vmware_protection_job name job_name vcenter sources policy
           domain pause_job timezone description) tr
  = (Returned ("Job with name " +:+ job_name +:+ " already exists."),
     tr0 ++ [Did (sdk h (get_protection_jobs job_name false))]).
Proof.
  intros Hc Hj Hname. unfold create_vmware_protection_job. steps.
  by rewrite Hname, String.eqb_refl.
Qed.

Section Create.

Context (w : world)
  (name job_name vcenter sources policy domain timezone description : string)
  (pause_job : bool) (tr tr0 tr2 tr3 tr4 : list event) (h : client)
  (jobs : list protection_job) (policy_id view_box_id : option Z)
  (parent : Z) (ids : list Z).

Hypothesis Hc : run w (_get_client name) tr = (Returned (Some h), tr0).
Hypothesis Hj : w tr0 (sdk h (get_protection_jobs job_name false)) = Returned jobs.
Hypothesis Hnew : forall job, head jobs = Some job -> pj_name job <> job_name.
Hypothesis Hpol :
  run w (_get_policy_id name policy)
    (tr0 ++ [Did (sdk h (get_protection_jobs job_name false))])
  = (Returned policy_id, tr2).
Hypothesis Hsd : run w (_get_sd_id name domain) tr2 = (Returned view_box_id, tr3).
Hypothesis Hr :
  run w (_get_vmware_source_ids name vcenter (split "," sources)) tr3
  = (Returned (parent, ids), tr4).

Lemma run_create_resolved :
  run w (create_vmware_protection_job name job_name vcenter sources policy
           domain pause_job timezone description) tr
  = run w
      (try_except
         (if parent =? -1
          then Ret ("Unable to fetch Vcenter with name " +:+ vcenter)
          else if (length ids =? 0)%nat
          then Ret ("Minimum of one VM is required to created protection job." +:+
                    " Unable to find atleast provided VMs " +:+
                    join "," (chars sources) +:+ " in the Vcenter " +:+ vcenter)
          else
            let body := {| body_name := job_name;
                           body_description := description;
                           body_policy_id := policy_id;
                           body_timezone := timezone;
                           body_view_box_id := view_box_id;
                           body_environment := K_VMWARE;
                           body_pause := true;
                           body_parent_source_id := parent;
                           body_source_ids := ids |} in
            resp ← call (Some h) (create_protection_job body);
            (if pause_job
             then call (Some h) (change_protection_job_state (pj_id resp) pause_job)
             else Ret tt);;
            Ret ("Successfully created ProtectionGroup: " +:+ body_name body))
         (fun err => Ret ("Error creating job " +:+ job_name +:+ " " +:+ str_exn err)))
      tr4.
Proof.
  assert (Hfresh : match jobs with
                   | job :: _ => String.eqb (pj_name job) job_name
                   | [] => false
                   end = false).
  { destruct jobs as [|job jobs']; [done|].
    destruct (String.eqb_spec (pj_name job) job_name); [|done].
    by destruct (Hnew job eq_refl). }
  unfold create_vmware_protection_job.
  rewrite !run_try_except.
  repeat first [rewrite run_bind | step_call | use_hyp | rewrite Hfresh
               | progress (cbv beta iota)].
  reflexivity.
Qed.

End Create.

(** X5: with policy and storage domain looked up, a resolution that ends on
    parent -1 makes [create_vmware_protection_job] return the unable-to-fetch
    message, and one that ends without machine ids the minimum-of-one-VM
    message, which lists the characters of [sources] joined by commas; no
    further call is made. *)
Theorem create_aborts_without_sources (w : world)
    (name job_name vcenter sources policy domain timezone description : string)
    (pause_job : bool) (tr tr0 tr2 tr3 tr4 : list event) (h : client)
    (jobs : list protection_job) (policy_id view_box_id : option Z)
    (parent : Z) (ids : list Z) :
  run w (_get_client name) tr = (Returned (Some h), tr0) ->
  w tr0 (sdk h (get_protection_jobs job_name false)) = Returned jobs ->
  (forall job, head jobs = Some job -> pj_name job <> job_name) ->
  run w (_get_policy_id name policy)
    (tr0 ++ [Did (sdk h (get_protection_jobs job_name false))])
  = (Returned policy_id, tr2) ->
  run w (_get_sd_id name domain) tr2 = (Returned view_box_id, tr3) ->
  run w (_get_vmware_source_ids name vcenter (split "," sources)) tr3
  = (Returned (parent, ids), tr4) ->
  (parent = -1 ->
   run w (create_vmware_protection_job name job_name vcenter sources policy
            domain pause_job timezone description) tr
   = (Returned ("Unable to fetch Vcenter with name " +:+ vcenter), tr4)) /\
  (parent <> -1 -> ids = [] ->
   run w (create_vmware_protection_job name job_name vcenter sources policy
            domain pause_job timezone description) tr
   = (Returned ("Minimum of one VM is required to created protection job." +:+
                " Unable to find atleast provided VMs " +:+
                join "," (chars sources) +:+ " in the Vcenter " +:+ vcenter),
      tr4)).
Proof.
  intros Hc Hj Hnew Hpol Hsd Hr.
  rewrite (run_create_resolved w name job_name vcenter sources policy domain
             timezone description pause_job tr tr0 tr2 tr3 tr4 h jobs policy_id
             view_box_id parent ids Hc Hj Hnew Hpol Hsd Hr).
  split.
  - intros ->. reflexivity.
  - intros Hp%Z.eqb_neq ->. by rewrite Hp.
Qed.

(** X6: when the job was created and the pause that follows raises an
    [APIException], the operation returns the error-creating-job message
    although the creation went through. *)
Theorem create_pause_failure_keeps_job (w : world)
    (name job_name vcenter sources policy domain timezone description : string)
    (tr tr0 tr2 tr3 tr4 : list event) (h : client)
    (jobs : list protection_job) (policy_id view_box_id : option Z)
    (parent sid : Z) (sids : list Z) (resp : protection_job) (m : string) :
  run w (_get_client name) tr = (Returned (Some h), tr0) ->
  w tr0 (sdk h (get_protection_jobs job_name false)) = Returned jobs ->
  (forall job, head jobs = Some job -> pj_name job <> job_name) ->
  run w (_get_policy_id name policy)
    (tr0 ++ [Did (sdk h (get_protection_jobs job_name false))])
  = (Returned policy_id, tr2) ->
  run w (_get_sd_id name domain) tr2 = (Returned view_box_id, tr3) ->
  run w (_get_vmware_source_ids name vcenter (split "," sources)) tr3
  = (Returned (parent, sid :: sids), tr4) ->
  parent <> -1 ->
  let body := {| body_name := job_name;
                 body_description := description;
                 body_policy_id := policy_id;
                 body_timezone := timezone;
                 body_view_box_id := view_box_id;
                 body_environment := K_VMWARE;
                 body_pause := true;
                 body_parent_source_id := parent;
                 body_source_ids := sid :: sids |} in
  w tr4 (sdk h (create_protection_job body)) = Returned resp ->
  w (tr4 ++ [Did (sdk h (create_protection_job body))])
    (sdk h (change_protection_job_state (pj_id resp) true))
  = Raised (APIException m) ->
  run w (create_vmware_protection_job name job_name vcenter sources policy
           domain true timezone description) tr
  = (Returned ("Error creating job " +:+ job_name +:+ " " +:+ m),
     tr4 ++ [Did (sdk h (create_protection_job body));
             Did (sdk h (change_protection_job_state (pj_id resp) true))]).
Proof.
  intros Hc Hj Hnew Hpol Hsd Hr Hp%Z.eqb_neq body Hcreate Hpause. subst body.
  rewrite (run_create_resolved w name job_name vcenter sources policy domain
             timezone description true tr tr0 tr2 tr3 tr4 h jobs policy_id
             view_box_id parent (sid :: sids) Hc Hj Hnew Hpol Hsd Hr).
  rewrite Hp. cbn [length Nat.eqb]. by steps.
Qed.

(** X7: [cancel_vmware_protection_job] looks at the first run only: without
    runs it reports that run details are not available; when the status of
    the first run is neither kRunning nor kAccepted it reports no active run
    and cancels nothing; otherwise it cancels that run of that job. *)
Theorem cancel_only_active_run (w : world) (name job_name : string)
    (tr tr0 : list event) (h : client) (before after : list protection_job)
    (job : protection_job) (runs : list protection_run) :
  run w (_get_client name) tr = (Returned (Some h), tr0) ->
  w tr0 (sdk h (get_protection_jobs job_name false))
  = Returned (before ++ job :: after) ->
  Forall (fun j => pj_name j <> job_name) before ->
  pj_name job = job_name ->
  pj_id job <> 0 ->
  let tr1 := tr0 ++ [Did (sdk h (get_protection_jobs job_name false))] in
  w tr1 (sdk h (get_protection_runs (pj_id job))) = Returned runs ->
  let tr2 := tr1 ++ [Did (sdk h (get_protection_runs (pj_id job)))] in
  match runs with
  | [] =>
      run w (cancel_vmware_protection_job name job_name) tr
      = (Returned ("Job run details not available for job " +:+ job_name), tr2)
  | latest :: _ =>
      if str_in (run_status latest) ["kRunning"; "kAccepted"]
      then (run w (cancel_vmware_protection_job name job_name) tr).2
           = tr2 ++ [Did (sdk h (create_cancel_protection_job_run (pj_id job)
                                   (run_job_run_id latest)))]
      else run w (cancel_vmware_protection_job name job_name) tr
           = (Returned ("No active job run available for job " +:+ job_name), tr2)
  end.
Proof.
  intros Hc Hj Hbefore Hname Hid%Z.eqb_neq tr1 Hruns tr2. subst tr1 tr2.
  unfold cancel_vmware_protection_job. steps.
  rewrite match_nonempty by apply app_cons_nonempty.
  rewrite (assign_job_id_first _ _ _ _ _ _ Hbefore Hname).
  cbn [read]. steps. rewrite Hid. steps.
  destruct runs as [|latest runs]; [done|].
  destruct (str_in _ _); cbn [negb]; [|done].
  steps. finish_call.
Qed.

Lemma assign_job_id_none {V : Type} (bound : Z -> V) (job_name : string)
    (jobs : list protection_job) (v : V) :
  Forall (fun j => pj_name j <> job_name) jobs ->
  assign_job_id bound job_name jobs v = v.
Proof.
  induction 1 as [|j jobs Hn Hj IH]; simpl; [done|].
  by destruct (String.eqb_spec (pj_name j) job_name).
Qed.

(** X8: when the lookup answers jobs none of which carries the requested
    name, [run_vmware_protection_job] returns the not-available message,
    while cancel, delete and a state change to a supported state raise
    [UnboundLocalError]; none issues a further call. *)
Theorem unmatched_name_run_refuses_others_raise (w : world)
    (name job_name : string) (tr tr0 : list event) (h : client)
    (job : protection_job) (others : list protection_job) :
  run w (_get_client name) tr = (Returned (Some h), tr0) ->
  w tr0 (sdk h (get_protection_jobs job_name false)) = Returned (job :: others) ->
  Forall (fun j => pj_name j <> job_name) (job :: others) ->
  let tr1 := tr0 ++ [Did (sdk h (get_protection_jobs job_name false))] in
  run w (run_vmware_protection_job name job_name) tr
  = (Returned ("Job with name " +:+ job_name +:+ " not available."), tr1) /\
  run w (cancel_vmware_protection_job name job_name) tr
  = (Raised (UnboundLocalError "job_id"), tr1) /\
  (forall delete_snapshots,
     run w (delete_vmware_protection_job name job_name delete_snapshots) tr
     = (Raised (UnboundLocalError "job_id"), tr1)) /\
  (forall state, state ∈ supported_states ->
     run w (update_vmware_protection_job_state name job_name state) tr
     = (Raised (UnboundLocalError "job_id"), tr1)).
Proof.
  intros Hc Hj Hnone tr1. subst tr1. repeat split.
  - unfold run_vmware_protection_job. steps.
    by rewrite (assign_job_id_none _ _ _ _ Hnone).
  - unfold cancel_vmware_protection_job. steps.
    by rewrite (assign_job_id_none _ _ _ _ Hnone).
  - intros ds. unfold delete_vmware_protection_job. steps.
    by rewrite (assign_job_id_none _ _ _ _ Hnone).
  - intros state Hs%str_in_spec. unfold update_vmware_protection_job_state. steps.
    by rewrite (assign_job_id_none _ _ _ _ Hnone), Hs.
Qed.

(** X9: [register_vcenter] compares endpoints only.  A registered source with
    the given endpoint makes it return the already-registered message without
    registering; otherwise it registers the vCenter as kVCenter with the given
    credentials, and reports success, the text of an [APIException], or lets
    another exception through. *)
Theorem register_vcenter_by_endpoint (w : world)
    (name vcenter username password : string) (tr tr0 : list event) (h : client)
    (existing : list source_node) :
  run w (_get_client name) tr = (Returned (Some h), tr0) ->
  let listing := sdk h (list_protection_sources_root_nodes None (Some K_VMWARE)) in
  w tr0 listing = Returned existing ->
  let body := {| reg_endpoint := vcenter; reg_environment := K_VMWARE;
                 reg_username := username; reg_password := password;
                 reg_vmware_type := "kVCenter" |} in
  (Exists (fun s => src_endpoint s = vcenter) existing ->
   run w (register_vcenter name vcenter username password) tr
   = (Returned ("Source with name " +:+ vcenter +:+ " is already registered"),
      tr0 ++ [Did listing])) /\
  (Forall (fun s => src_endpoint s <> vcenter) existing ->
   let registration := sdk h (create_register_protection_source body) in
   run w (register_vcenter name vcenter username password) tr
   = match w (tr0 ++ [Did listing]) registration with
     | Returned _ =>
         (Returned ("Successfully registered Vcenter " +:+ vcenter),
          tr0 ++ [Did listing; Did registration])
     | Raised (APIException m) =>
         (Returned m, tr0 ++ [Did listing; Did registration; Logged ERROR m])
     | Raised e => (Raised e, tr0 ++ [Did listing; Did registration])
     end).
Proof.
  intros Hc listing Hl body. subst listing body. split.
  - intros Hex. unfold register_vcenter. steps.
    assert (Hb : existsb (fun s => String.eqb (src_endpoint s) vcenter) existing = true).
    { apply existsb_exists. apply Exists_exists in Hex as (s & Hin & Hs).
      exists s. split; [by apply list_elem_of_In|]. by apply String.eqb_eq. }
    by rewrite Hb.
  - intros Hall.
    assert (Hb : existsb (fun s => String.eqb (src_endpoint s) vcenter) existing = false).
    { destruct (existsb _ _) eqn:E; [|done].
      apply existsb_exists in E as (s & Hin%list_elem_of_In & Hs%String.eqb_eq).
      rewrite Forall_forall in Hall. by destruct (Hall s Hin). }
    intros registration. subst registration.
    unfold register_vcenter. steps. rewrite Hb. steps.
    destruct (w _ (sdk h (create_register_protection_source _))) as [[]|e]; [done|].
    destruct e; by steps.
Qed.

(** X10: an [APIException] of the listing in [register_vcenter] is logged and
    its text returned; nothing is registered. *)
Theorem register_vcenter_reports_api_error (w : world)
    (name vcenter username password m : string) (tr tr0 : list event) (h : client) :
  run w (_get_client name) tr = (Returned (Some h), tr0) ->
  let listing := sdk h (list_protection_sources_root_nodes None (Some K_VMWARE)) in
  w tr0 listing = Raised (APIException m) ->
  run w (register_vcenter name vcenter username password) tr
  = (Returned m, tr0 ++ [Did listing; Logged ERROR m]).
Proof.
  intros Hc listing Hl. subst listing. unfold register_vcenter. by steps.
Qed.

(** X11: [_get_vmware_source_ids] lets no [APIException] of its two listings
    out: it logs it and returns (-1, []), dropping the parent id it had found
    when it is the machine listing that fails. *)
Theorem resolver_swallows_api_errors (w : world) (name vcenter m : string)
    (vm_list : list string) (tr tr0 : list event) (h : client) :
  run w (_get_client name) tr = (Returned (Some h), tr0) ->
  let tr1 := tr0 ++ [Logged INFO "Fetching Vcenter and Vm ids"] in
  let roots_call := sdk h (list_protection_sources_root_nodes (Some K_VMWARE) None) in
  (w tr1 roots_call = Raised (APIException m) ->
   run w (_get_vmware_source_ids name vcenter vm_list) tr
   = (Returned (-1, []), tr1 ++ [Did roots_call; Logged ERROR m])) /\
  (forall result,
     w tr1 roots_call = Returned result ->
     let parent := find_parent vcenter result (-1) in
     parent <> -1 ->
     w (tr1 ++ [Did roots_call]) (sdk h (list_virtual_machines parent vm_list))
     = Raised (APIException m) ->
     run w (_get_vmware_source_ids name vcenter vm_list) tr
     = (Returned (-1, []),
        tr1 ++ [Did roots_call; Did (sdk h (list_virtual_machines parent vm_list));
                Logged ERROR m])).
Proof.
  intros Hc tr1 roots_call. subst tr1 roots_call. split.
  - intros Hr. unfold _get_vmware_source_ids. by steps.
  - intros result Hr parent Hp%Z.eqb_neq Hl. subst parent.
    rewrite <- app_assoc in Hl. cbn [app] in Hl.
    unfold _get_vmware_source_ids. steps. rewrite Hp. norm. by steps.
Qed.

(** X12: a master configuration without a cohesity_config entry does not
    fail [_get_client]: the client is constructed with four empty strings. *)
Theorem get_client_defaults_to_empty (w : world) (name : string)
    (tr : list event) (opts : gmap string (gmap string string)) (h : client) :
  w tr (master_config "/etc/salt/master") = Returned opts ->
  opts !! "cohesity_config" = None ->
  w (tr ++ [Did (master_config "/etc/salt/master")]) (CohesityClient "" "" "" "")
  = Returned h ->
  run w (_get_client name) tr
  = (Returned (Some h),
     tr ++ [Did (master_config "/etc/salt/master");
            Did (CohesityClient "" "" "" "")]).
Proof.
  intros Hopts Hnone Hh. rewrite run_get_client, Hopts. cbv zeta.
  unfold connect. rewrite Hnone. cbn [default]. rewrite !lookup_empty.
  cbn [default]. rewrite Hh. by rewrite <- app_assoc.
Qed.

(** X13: when no snapshot was captured at a positive time (in particular
    when there is none), the restore raises [UnboundLocalError] for [job_id]
    and submits nothing. *)
Theorem recover_latest_needs_positive_time (w : world) (h : client)
    (task_name vm_names prefix suffix : string) (source_id : list Z)
    (powered_on : bool) (l : list object_snapshot) (tr : list event) :
  Forall (fun s => versions s <> []) l ->
  (forall s t, s ∈ l -> captured s = Some t -> t <= 0) ->
  run w (recover_latest (Some h) task_name vm_names source_id prefix suffix
           powered_on l) tr
  = (Raised (UnboundLocalError "job_id"), tr).
Proof.
  intros Hl Hle.
  destruct (scan_snapshots_spec l scan_start Hl)
    as [[Hscan _]|(i & s & v & (Hi & Hv & _) & Hgt & _)].
  - unfold recover_latest. rewrite run_bind, run_lift, Hscan. reflexivity.
  - exfalso. simpl in Hgt.
    assert (Hin : s ∈ l) by (apply list_elem_of_lookup; by exists i).
    assert (Hc : captured s = Some (started_time_usecs v)).
    { unfold captured. by rewrite Hv. }
    specialize (Hle s _ Hin Hc). lia.
Qed.

(** X14: when [list_protection_sources] answers an empty list, [restore_vms]
    raises [IndexError] right after that call, before any snapshot search. *)
Theorem restore_vms_needs_source_objects (w : world)
    (name task_name vcenter_name vm_names resource_pool datastore_name
       prefix suffix : string) (powered_on : bool) (tr tr0 tr1 : list event)
    (h : client) (parent_id : Z) (source_id : list Z) :
  run w (_get_client name) tr = (Returned (Some h), tr0) ->
  run w (_get_vmware_source_ids name vcenter_name (split "," vm_names)) tr0
  = (Returned (parent_id, source_id), tr1) ->
  let listing :=
    sdk h (list_protection_sources parent_id true
             ["kHostSystem"; "kVirtualMachine"] K_VMWARE) in
  w tr1 listing = Returned [] ->
  run w (restore_vms name task_name vcenter_name vm_names resource_pool
           datastore_name prefix suffix powered_on) tr
  = (Raised (IndexError "list index out of range"), tr1 ++ [Did listing]).
Proof.
  intros Hc Hr listing Hl. subst listing. unfold restore_vms. by steps.
Qed.

Lemma run_bind_ext {A B : Type} (w : world) (p : prog A) (f g : A -> prog B)
    (tr : list event) :
  (forall a tr', run w (f a) tr' = run w (g a) tr') ->
  run w (p ≫= f) tr = run w (p ≫= g) tr.
Proof.
  intros Hfg. rewrite !run_bind. destruct (run w p tr) as [[a|e] tr']; auto.
Qed.

Lemma run_try_except_ext {A : Type} (w : world) (p q : prog A)
    (h : exn -> prog A) (tr : list event) :
  run w p tr = run w q tr ->
  run w (try_except p h) tr = run w (try_except q h) tr.
Proof. intros Hpq. by rewrite !run_try_except, Hpq. Qed.

(** Fetching from a non-empty answer returns, whatever is looked for, and
    leaves the rest of the answer alone. *)
Lemma fetch_shape (source_objects : list source_object) (source_type name : string) :
  match source_objects with
  | [] => _fetch_source_objects source_objects source_type name
          = Raise (IndexError "list index out of range")
  | first :: others =>
      exists found nodes,
        _fetch_source_objects source_objects source_type name
        = Ret (found, {| so_nodes := nodes |} :: others)
  end.
Proof.
  destruct source_objects as [|first others]; [done|].
  unfold _fetch_source_objects. cbv zeta.
  destruct (walk_nodes _ _ _ _ _) as [found nodes].
  by exists found, nodes.
Qed.

(** X15: the arguments [resource_pool] and [datastore_name] do not change
    what [restore_vms] does: outcome and trace are the same for any two
    choices of them. *)
Theorem restore_vms_ignores_pool_and_datastore (w : world)
    (name task_name vcenter_name vm_names prefix suffix : string)
    (resource_pool datastore_name resource_pool' datastore_name' : string)
    (powered_on : bool) (tr : list event) :
  run w (restore_vms name task_name vcenter_name vm_names resource_pool
           datastore_name prefix suffix powered_on) tr
  = run w (restore_vms name task_name vcenter_name vm_names resource_pool'
             datastore_name' prefix suffix powered_on) tr.
Proof.
  unfold restore_vms. apply run_try_except_ext.
  apply run_bind_ext. intros c tr0.
  apply run_bind_ext. intros [parent_id source_id] tr1.
  apply run_bind_ext. intros source_objects tr2.
  pose proof (fetch_shape source_objects "kResourcePool" resource_pool) as H1.
  pose proof (fetch_shape source_objects "kResourcePool" resource_pool') as H1'.
  destruct source_objects as [|first others].
  { by rewrite H1, H1'. }
  destruct H1 as (f1 & n1 & ->). destruct H1' as (f1' & n1' & ->).
  change (Ret ?x ≫= ?f) with (f x). cbv beta iota.
  destruct (fetch_shape ({| so_nodes := n1 |} :: others) "kDatastore" datastore_name)
    as (f2 & n2 & ->).
  destruct (fetch_shape ({| so_nodes := n1' |} :: others) "kDatastore" datastore_name')
    as (f2' & n2' & ->).
  reflexivity.
Qed.

(** X16: of several registered sources that carry the requested name, as
    endpoint or as display name, the last in list order gives the parent
    id. *)
Theorem find_parent_last_match (name : string) (before after : list source_node)
    (s : source_node) (p : Z) :
  name = src_endpoint s \/ name = src_name s ->
  Forall (fun s' => name <> src_endpoint s' /\ name <> src_name s') after ->
  find_parent name (before ++ s :: after) p = src_id s.
Proof.
  intros Hs Hafter. revert p.
  induction before as [|b before IH]; intros p; cbn [app find_parent].
  - assert (Hin : str_in name [src_endpoint s; src_name s] = true).
    { apply str_in_spec. destruct Hs as [->| ->]; set_solver. }
    rewrite Hin. by apply find_parent_unknown.
  - apply IH.
Qed.

Lemma list_remove_perm (x : string) (l l' : list string) :
  list_remove x l = Returned l' -> l ≡ₚ x :: l'.
Proof.
  revert l'. induction l as [|y l IH]; intros l'; simpl; [done|].
  destruct (String.eqb_spec y x) as [->|Hne].
  - by intros [= ->].
  - destruct (list_remove x l) as [r|e]; [|done].
    intros [= <-]. rewrite (IH r eq_refl). apply Permutation_swap.
Qed.

(** X17: when the loop over the listed machines ends, the names of the
    listed machines together with the names left over are the requested names
    (up to order), and the ids are those of the listed machines, in order. *)
Theorem collect_vms_accounts_for_names (vms : list virtual_machine)
    (names left : list string) (acc ids : list Z) :
  collect_vms vms names acc = Returned (left, ids) ->
  (vm_name <$> vms) ++ left ≡ₚ names /\ ids = acc ++ (vm_id <$> vms).
Proof.
  intros H. split; [|by apply collect_vms_ids in H].
  revert names acc H. induction vms as [|vm vms IH]; intros names acc; simpl.
  - by intros [= <- _].
  - destruct (list_remove (vm_name vm) names) as [names'|e] eqn:Hr; [|done].
    intros H. apply IH in H. apply list_remove_perm in Hr.
    by rewrite Hr, H.
Qed.

Lemma collect_vms_unexpected (vms : list virtual_machine) (names : list string)
    (acc : list Z) :
  Exists (fun vm => vm_name vm ∉ names) vms ->
  collect_vms vms names acc = Raised (ValueError "list.remove(x): x not in list").
Proof.
  intros Hex.
  destruct (collect_vms vms names acc) as [[left ids]|e] eqn:E.
  - exfalso. apply collect_vms_accounts_for_names in E as [Hperm _].
    apply Exists_exists in Hex as (vm & Hin & Hnot). apply Hnot.
    rewrite <- Hperm. apply elem_of_app. left.
    apply list_elem_of_fmap. by exists vm.
  - by apply collect_vms_raises in E as ->.
Qed.

(** X18: when the cluster lists a machine whose name is not among the
    requested ones, [_get_vmware_source_ids] raises [ValueError], which its
    handler does not catch. *)
Theorem resolver_raises_on_unrequested_machine (w : world)
    (name vcenter : string) (vm_list : list string) (tr tr0 : list event)
    (h : client) (result : list source_node) (vms : list virtual_machine) :
  run w (_get_client name) tr = (Returned (Some h), tr0) ->
  w (tr0 ++ [Logged INFO "Fetching Vcenter and Vm ids"])
    (sdk h (list_protection_sources_root_nodes (Some K_VMWARE) None))
  = Returned result ->
  let parent := find_parent vcenter result (-1) in
  parent <> -1 ->
  w (tr0 ++ [Logged INFO "Fetching Vcenter and Vm ids";
             Did (sdk h (list_protection_sources_root_nodes (Some K_VMWARE) None))])
    (sdk h (list_virtual_machines parent vm_list))
  = Returned vms ->
  Exists (fun vm => vm_name vm ∉ vm_list) vms ->
  run w (_get_vmware_source_ids name vcenter vm_list) tr
  = (Raised (ValueError "list.remove(x): x not in list"),
     tr0 ++ [Logged INFO "Fetching Vcenter and Vm ids";
             Did (sdk h (list_protection_sources_root_nodes (Some K_VMWARE) None));
             Did (sdk h (list_virtual_machines parent vm_list))]).
Proof.
  intros Hc Hr parent Hp%Z.eqb_neq Hl Hex. subst parent.
  unfold _get_vmware_source_ids. steps. rewrite Hp. norm. steps.
  by rewrite (collect_vms_unexpected _ _ _ Hex).
Qed.

Lemma add_source_ids_present (new l : list Z) :
  (forall x, x ∈ new -> x ∈ l) -> add_source_ids new l = l.
Proof.
  revert l. induction new as [|y new IH]; intros l Hin; simpl; [done|].
  rewrite bool_decide_eq_true_2 by (apply Hin; set_solver).
  apply IH. intros x Hx. apply Hin. set_solver.
Qed.

(** X19: adding the same new ids a second time changes nothing, and adding
    keeps the ids already there in place, at the front. *)
Theorem add_source_ids_idempotent (new l : list Z) :
  add_source_ids new (add_source_ids new l) = add_source_ids new l /\
  exists added, add_source_ids new l = l ++ added.
Proof.
  split; [|apply add_source_ids_extends].
  apply add_source_ids_present. intros x Hx. apply add_source_ids_elem. by right.
Qed.

Lemma split_nonempty (sep : ascii) (s : string) : split sep s <> [].
Proof.
  destruct s as [|c rest]; simpl; [done|].
  destruct (Ascii.eqb c sep); [done|]. by destruct (split sep rest).
Qed.

Lemma join_split (sep : ascii) (s : string) :
  join (String sep EmptyString) (split sep s) = s.
Proof.
  induction s as [|c rest IH]; simpl; [done|].
  pose proof (split_nonempty sep rest) as Hne.
  destruct (Ascii.eqb_spec c sep) as [->|Hc].
  - destruct (split sep rest) as [|w ws]; [done|]. simpl in *. by rewrite IH.
  - destruct (split sep rest) as [|w ws]; [done|].
    destruct ws as [|w' ws]; simpl in *; by rewrite <- IH.
Qed.

Lemma reachable_app (l k : list tree_node) (n : tree_node) :
  reachable (l ++ k) n <-> reachable l n \/ reachable k n.
Proof.
  split.
  - inversion 1 as [? ? Hin|? m ? Hin Hm]; subst.
    + apply elem_of_app in Hin as [?|?]; [left|right]; by constructor.
    + apply elem_of_app in Hin as [?|?]; [left|right]; by apply (reach_below _ m).
  - intros [H|H]; inversion H as [? ? Hin|? m ? Hin Hm]; subst.
    + apply reach_top. set_solver.
    + apply (reach_below _ m); [set_solver|done].
    + apply reach_top. set_solver.
    + apply (reach_below _ m); [set_solver|done].
Qed.

Lemma reachable_cons (node : tree_node) (rest : list tree_node) (n : tree_node) :
  reachable (node :: rest) n <->
  n = node \/ reachable (node_nodes node) n \/ reachable rest n.
Proof.
  split.
  - inversion 1 as [? ? Hin|? m ? Hin Hm]; subst.
    + apply elem_of_cons in Hin as [->|?]; [by left|]. right; right. by constructor.
    + apply elem_of_cons in Hin as [->|?]; [by right; left|].
      right; right. by apply (reach_below _ m).
  - intros [->|[H|H]].
    + apply reach_top. set_solver.
    + apply (reach_below _ node); [set_solver|done].
    + inversion H as [? ? Hin|? m ? Hin Hm]; subst.
      * apply reach_top. set_solver.
      * apply (reach_below _ m); [set_solver|done].
Qed.

Lemma reachable_nil (n : tree_node) : ~ reachable [] n.
Proof. inversion 1 as [? ? Hin|? m ? Hin Hm]; subst; by apply elem_of_nil in Hin. Qed.

Lemma wanted_dec_leaf (source_type name : string) (node : tree_node) :
  node_nodes node = [] ->
  (if String.eqb (node_type node) source_type
   then if String.eqb name "" then true else String.eqb name (node_name node)
   else false) = true <-> wanted source_type name node.
Proof.
  intros Hleaf. unfold wanted.
  destruct (String.eqb_spec (node_type node) source_type) as [Ht|Ht].
  - destruct (String.eqb_spec name "") as [Hn|Hn]; [by intuition|].
    destruct (String.eqb_spec name (node_name node)) as [Hnn|Hnn].
    + by intuition.
    + split; [done|]. intros (_ & _ & [?|?]); congruence.
  - split; [done|]. by intros (_ & ? & _).
Qed.

Lemma walk_nodes_spec (fuel : nat) (visited pending : list tree_node)
    (source_type name : string) :
  (forest_weight pending <= fuel)%nat ->
  exists found more,
    walk_nodes fuel visited pending source_type name
    = (found, visited ++ pending ++ more) /\
    match found with
    | FoundId i =>
        exists n, reachable pending n /\ wanted source_type name n /\ node_id n = i
    | NotFound => forall n, reachable pending n -> ~ wanted source_type name n
    | ErrorText _ => False
    end.
Proof.
  revert visited pending.
  induction fuel as [|fuel IH]; intros visited pending Hfuel.
  - destruct pending as [|node rest].
    + exists NotFound, []. split; [done|]. intros n Hn. by apply reachable_nil in Hn.
    + simpl in Hfuel. rewrite weight_node in Hfuel. lia.
  - destruct pending as [|node rest].
    + exists NotFound, []. simpl. rewrite app_nil_r. split; [done|].
      intros n Hn. by apply reachable_nil in Hn.
    + simpl in Hfuel. rewrite weight_node in Hfuel. simpl.
      destruct (node_nodes node) as [|child children] eqn:Hn.
      * pose proof (wanted_dec_leaf source_type name node Hn) as Hdec.
        destruct (String.eqb (node_type node) source_type) eqn:Ht.
        -- destruct (String.eqb name "") eqn:Hname.
           { exists (FoundId (node_id node)), []. rewrite app_nil_r. split; [done|].
             exists node. split; [apply reach_top; constructor|].
             split; [apply Hdec; reflexivity|reflexivity]. }
           destruct (String.eqb name (node_name node)) eqn:Hnn.
           { exists (FoundId (node_id node)), []. rewrite app_nil_r. split; [done|].
             exists node. split; [apply reach_top; constructor|].
             split; [apply Hdec; reflexivity|reflexivity]. }
           destruct (IH (visited ++ [node]) rest) as (found & more & -> & Hfound);
             [simpl in *; lia|].
           exists found, more. rewrite <- app_assoc. split; [done|].
           destruct found as [i| |m]; [| |done].
           ++ destruct Hfound as (n & Hr & Hw & Hi). exists n.
              split; [|done]. apply reachable_cons. by right; right.
           ++ intros n [->|[Hr|Hr]]%reachable_cons.
              ** intros Hw%Hdec. done.
              ** rewrite Hn in Hr. by apply reachable_nil in Hr.
              ** by apply Hfound.
        -- destruct (IH (visited ++ [node]) rest) as (found & more & -> & Hfound);
             [simpl in *; lia|].
           exists found, more. rewrite <- app_assoc. split; [done|].
           destruct found as [i| |m]; [| |done].
           ++ destruct Hfound as (n & Hr & Hw & Hi). exists n.
              split; [|done]. apply reachable_cons. by right; right.
           ++ intros n [->|[Hr|Hr]]%reachable_cons.
              ** intros Hw%Hdec. done.
              ** rewrite Hn in Hr. by apply reachable_nil in Hr.
              ** by apply Hfound.
      * destruct (IH (visited ++ [node]) (rest ++ child :: children))
          as (found & more & -> & Hfound).
        { rewrite forest_weight_app. simpl in *. lia. }
        exists found, (child :: children ++ more).
        split.
        { f_equal. rewrite <- ?app_assoc. simpl. by rewrite <- ?app_assoc. }
        destruct found as [i| |m]; [| |done].
        -- destruct Hfound as (n & Hr & Hw & Hi). exists n. split; [|done].
           apply reachable_cons. rewrite Hn.
           apply reachable_app in Hr as [Hr|Hr]; [by right; right|by right; left].
        -- intros n [->|[Hr|Hr]]%reachable_cons.
           ++ intros (Hleaf & _). by rewrite Hn in Hleaf.
           ++ apply Hfound. apply reachable_app. right. by rewrite <- Hn.
           ++ apply Hfound. apply reachable_app. by left.
Qed.

(** X20: [_fetch_source_objects] on a non-empty answer returns; the id it
    finds is that of a node of the first source tree without children, of the
    requested type and, when a name is given, of that name; it finds none only
    when the tree has no such node; and the node list it leaves behind is the
    one it got with nodes appended. *)
Theorem fetch_source_objects_spec (first : source_object)
    (others : list source_object) (source_type name : string) :
  exists found more,
    _fetch_source_objects (first :: others) source_type name
    = Ret (found, {| so_nodes := so_nodes first ++ more |} :: others) /\
    match found with
    | FoundId i =>
        exists n, reachable (so_nodes first) n /\ wanted source_type name n /\
                  node_id n = i
    | NotFound =>
        forall n, reachable (so_nodes first) n -> ~ wanted source_type name n
    | ErrorText _ => False
    end.
Proof.
  destruct (walk_nodes_spec (forest_weight (so_nodes first)) [] (so_nodes first)
              source_type name) as (found & more & Hwalk & Hfound); [lia|].
  exists found, more. split; [|done].
  unfold _fetch_source_objects. cbv zeta. by rewrite Hwalk.
Qed.

(** X21: joining the pieces of [s.split(sep)] with the separator gives [s]
    back, and no piece contains the separator. *)
Theorem split_join_round_trip (sep : ascii) (s : string) :
  join (String sep EmptyString) (split sep s) = s /\
  Forall (fun piece => sep ∉ String.list_ascii_of_string piece) (split sep s).
Proof. split; [apply join_split|apply split_pieces]. Qed.

(** * Instances of the further properties *)

Lemma create_existing_job_refused_witness :
  run (serve (with_jobs site [job_of 5 "nightly" [11]]))
    (create_vmware_protection_job module_name "nightly" "vc1" "vm1" "Gold"
       "DefaultStorageDomain" true "Europe/Berlin" "") []
  = (Returned "Job with name nightly already exists.",
     connected ++ [Did (sdk 1%nat (get_protection_jobs "nightly" false))]).
Proof.
  apply (create_existing_job_refused (serve (with_jobs site [job_of 5 "nightly" [11]]))
           module_name "nightly" "vc1" "vm1" "Gold" "DefaultStorageDomain"
           "Europe/Berlin" "" true [] connected 1%nat (job_of 5 "nightly" [11]) []);
    reflexivity.
Defined.

Lemma create_aborts_without_sources_witness :
  (run (serve site)
     (create_vmware_protection_job module_name "nightly" "vc9" "vm1" "Gold"
        "DefaultStorageDomain" true "Europe/Berlin" "") []).1
  = Returned "Unable to fetch Vcenter with name vc9"
  /\ (run (serve site)
        (create_vmware_protection_job module_name "nightly" "vc1" "vmX" "Gold"
           "DefaultStorageDomain" true "Europe/Berlin" "") []).1
     = Returned ("Minimum of one VM is required to created protection job." +:+
                 " Unable to find atleast provided VMs v,m,X in the Vcenter vc1").
Proof.
  pose (w := serve site).
  pose (tr1 := connected ++ [Did (sdk 1%nat (get_protection_jobs "nightly" false))]).
  pose (tr2 := (run w (_get_policy_id module_name "Gold") tr1).2).
  pose (tr3 := (run w (_get_sd_id module_name "DefaultStorageDomain") tr2).2).
  assert (Hnew : forall job : protection_job,
             head [] = Some job -> pj_name job <> "nightly") by (by intros job [=]).
  split.
  - pose (tr4 := (run w (_get_vmware_source_ids module_name "vc9" (split "," "vm1")) tr3).2).
    destruct (create_aborts_without_sources w module_name "nightly" "vc9" "vm1"
                "Gold" "DefaultStorageDomain" "Europe/Berlin" "" true [] connected
                tr2 tr3 tr4 1%nat [] None None (-1) []
                eq_refl eq_refl Hnew eq_refl eq_refl eq_refl)
      as [Hparent _].
    exact (f_equal fst (Hparent eq_refl)).
  - pose (tr4 := (run w (_get_vmware_source_ids module_name "vc1" (split "," "vmX")) tr3).2).
    destruct (create_aborts_without_sources w module_name "nightly" "vc1" "vmX"
                "Gold" "DefaultStorageDomain" "Europe/Berlin" "" true [] connected
                tr2 tr3 tr4 1%nat [] None None 7 []
                eq_refl eq_refl Hnew eq_refl eq_refl eq_refl)
      as [_ Hids].
    exact (f_equal fst (Hids ltac:(done) eq_refl)).
Defined.

Lemma create_pause_failure_keeps_job_witness :
  let w := world_of master_opts site refuse_pause in
  let body := {| body_name := "nightly"; body_description := "";
                 body_policy_id := None; body_timezone := "Europe/Berlin";
                 body_view_box_id := None; body_environment := K_VMWARE;
                 body_pause := true; body_parent_source_id := 7;
                 body_source_ids := [11] |} in
  exists tr4,
    run w (create_vmware_protection_job module_name "nightly" "vc1" "vm1" "Gold"
             "DefaultStorageDomain" true "Europe/Berlin" "") []
    = (Returned "Error creating job nightly pause refused",
       tr4 ++ [Did (sdk 1%nat (create_protection_job body));
               Did (sdk 1%nat (change_protection_job_state 100 true))]).
Proof.
  intros w body.
  pose (tr1 := connected ++ [Did (sdk 1%nat (get_protection_jobs "nightly" false))]).
  pose (tr2 := (run w (_get_policy_id module_name "Gold") tr1).2).
  pose (tr3 := (run w (_get_sd_id module_name "DefaultStorageDomain") tr2).2).
  pose (tr4 := (run w (_get_vmware_source_ids module_name "vc1" (split "," "vm1")) tr3).2).
  exists tr4.
  apply (create_pause_failure_keeps_job w module_name "nightly" "vc1" "vm1" "Gold"
           "DefaultStorageDomain" "Europe/Berlin" "" [] connected tr2 tr3 tr4
           1%nat [] None None 7 11 [] (created body) "pause refused");
    try reflexivity; try done; try (by intros job [=]).
Defined.

Lemma cancel_only_active_run_witness :
  let c := with_runs (with_jobs site [job_of 5 "nightly" [11]])
             [ {| run_status := "kRunning"; run_job_run_id := 77 |};
               {| run_status := "kSuccess"; run_job_run_id := 76 |} ] in
  (run (serve c) (cancel_vmware_protection_job module_name "nightly") []).2
  = connected ++ [Did (sdk 1%nat (get_protection_jobs "nightly" false));
                  Did (sdk 1%nat (get_protection_runs 5));
                  Did (sdk 1%nat (create_cancel_protection_job_run 5 77))].
Proof.
  intros c.
  exact (cancel_only_active_run (serve c) module_name "nightly" [] connected 1%nat
           [] [] (job_of 5 "nightly" [11])
           [ {| run_status := "kRunning"; run_job_run_id := 77 |};
             {| run_status := "kSuccess"; run_job_run_id := 76 |} ]
           eq_refl eq_refl (Forall_nil_2 _) eq_refl ltac:(done) eq_refl).
Defined.

Lemma unmatched_name_run_refuses_others_raise_witness :
  let w := serve (with_jobs site [job_of 4 "nightly-old" [11]]) in
  let tr1 := connected ++ [Did (sdk 1%nat (get_protection_jobs "nightly" false))] in
  run w (run_vmware_protection_job module_name "nightly") []
  = (Returned "Job with name nightly not available.", tr1) /\
  run w (cancel_vmware_protection_job module_name "nightly") []
  = (Raised (UnboundLocalError "job_id"), tr1) /\
  (forall delete_snapshots,
     run w (delete_vmware_protection_job module_name "nightly" delete_snapshots) []
     = (Raised (UnboundLocalError "job_id"), tr1)) /\
  (forall state, state ∈ supported_states ->
     run w (update_vmware_protection_job_state module_name "nightly" state) []
     = (Raised (UnboundLocalError "job_id"), tr1)).
Proof.
  intros w tr1.
  apply (unmatched_name_run_refuses_others_raise w module_name "nightly" []
           connected 1%nat (job_of 4 "nightly-old" [11]) []); try reflexivity.
  repeat constructor. done.
Defined.

Lemma register_vcenter_by_endpoint_witness :
  let listing := sdk 1%nat (list_protection_sources_root_nodes None (Some K_VMWARE)) in
  run (serve site) (register_vcenter module_name "vc1.example.com" "root" "pw") []
  = (Returned "Source with name vc1.example.com is already registered",
     connected ++ [Did listing])
  /\ run (serve site) (register_vcenter module_name "vc1" "root" "pw") []
     = (Returned "Successfully registered Vcenter vc1",
        connected ++
        [Did listing;
         Did (sdk 1%nat (create_register_protection_source
                {| reg_endpoint := "vc1"; reg_environment := K_VMWARE;
                   reg_username := "root"; reg_password := "pw";
                   reg_vmware_type := "kVCenter" |}))]).
Proof.
  intros listing. split.
  - destruct (register_vcenter_by_endpoint (serve site) module_name
                "vc1.example.com" "root" "pw" [] connected 1%nat (roots site)
                eq_refl eq_refl) as [Hregistered _].
    apply Hregistered. apply Exists_cons_hd. reflexivity.
  - destruct (register_vcenter_by_endpoint (serve site) module_name
                "vc1" "root" "pw" [] connected 1%nat (roots site)
                eq_refl eq_refl) as [_ Hfresh].
    apply Hfresh. repeat constructor. done.
Defined.

Lemma register_vcenter_reports_api_error_witness :
  run (world_of master_opts site refuse_roots)
    (register_vcenter module_name "vc2" "root" "pw") []
  = (Returned "cluster unreachable",
     connected ++
     [Did (sdk 1%nat (list_protection_sources_root_nodes None (Some K_VMWARE)));
      Logged ERROR "cluster unreachable"]).
Proof.
  apply (register_vcenter_reports_api_error (world_of master_opts site refuse_roots)
           module_name "vc2" "root" "pw" "cluster unreachable" [] connected 1%nat);
    reflexivity.
Defined.

Lemma resolver_swallows_api_errors_witness :
  let tr1 := connected ++ [Logged INFO "Fetching Vcenter and Vm ids"] in
  let roots_call :=
    sdk 1%nat (list_protection_sources_root_nodes (Some K_VMWARE) None) in
  run (world_of master_opts site refuse_roots)
    (_get_vmware_source_ids module_name "vc1" ["vm1"]) []
  = (Returned (-1, []),
     tr1 ++ [Did roots_call; Logged ERROR "cluster unreachable"])
  /\ run (world_of master_opts site refuse_machines)
       (_get_vmware_source_ids module_name "vc1" ["vm1"]) []
     = (Returned (-1, []),
        tr1 ++ [Did roots_call; Did (sdk 1%nat (list_virtual_machines 7 ["vm1"]));
                Logged ERROR "listing failed"]).
Proof.
  intros tr1 roots_call. split.
  - destruct (resolver_swallows_api_errors (world_of master_opts site refuse_roots)
                module_name "vc1" "cluster unreachable" ["vm1"] [] connected 1%nat
                eq_refl) as [Hroots _].
    exact (Hroots eq_refl).
  - destruct (resolver_swallows_api_errors (world_of master_opts site refuse_machines)
                module_name "vc1" "listing failed" ["vm1"] [] connected 1%nat
                eq_refl) as [_ Hmachines].
    exact (Hmachines (roots site) eq_refl ltac:(done) eq_refl).
Defined.

Lemma get_client_defaults_to_empty_witness :
  run (world_of ∅ site as_configured) (_get_client module_name) []
  = (Returned (Some 1%nat),
     [Did (master_config "/etc/salt/master"); Did (CohesityClient "" "" "" "")]).
Proof.
  apply (get_client_defaults_to_empty (world_of ∅ site as_configured) module_name
           [] ∅ 1%nat); reflexivity.
Defined.

Lemma recover_latest_needs_positive_time_witness :
  run (serve site)
    (recover_latest (Some 1%nat) "task" "vm1" [11] "" "" true [snapshot_of 1 10 0])
    connected
  = (Raised (UnboundLocalError "job_id"), connected).
Proof.
  apply (recover_latest_needs_positive_time (serve site) 1%nat "task" "vm1" "" ""
           [11] true [snapshot_of 1 10 0] connected).
  - repeat constructor. done.
  - intros s t [->|Hin]%elem_of_cons; [|by apply elem_of_nil in Hin].
    intros [= <-]. done.
Defined.

Lemma restore_vms_needs_source_objects_witness :
  let w := serve (with_sources site []) in
  let tr1 :=
    (run w (_get_vmware_source_ids module_name "vc1" (split "," "vm1")) connected).2 in
  run w (restore_vms module_name "task" "vc1" "vm1" "" "" "" "" true) []
  = (Raised (IndexError "list index out of range"),
     tr1 ++ [Did (sdk 1%nat (list_protection_sources 7 true
                               ["kHostSystem"; "kVirtualMachine"] K_VMWARE))]).
Proof.
  intros w tr1.
  apply (restore_vms_needs_source_objects w module_name "task" "vc1" "vm1" "" ""
           "" "" true [] connected tr1 1%nat 7 [11]); reflexivity.
Defined.

Lemma find_parent_last_match_witness :
  find_parent "vc1"
    ([ {| src_endpoint := "vc1.example.com"; src_name := "vc1"; src_id := 7 |} ] ++
     {| src_endpoint := "vc1"; src_name := "lab"; src_id := 9 |} ::
     [ {| src_endpoint := "vc2"; src_name := "vc2"; src_id := 12 |} ]) (-1)
  = 9.
Proof.
  apply (find_parent_last_match "vc1"
           [ {| src_endpoint := "vc1.example.com"; src_name := "vc1"; src_id := 7 |} ]
           [ {| src_endpoint := "vc2"; src_name := "vc2"; src_id := 12 |} ]
           {| src_endpoint := "vc1"; src_name := "lab"; src_id := 9 |} (-1)).
  - by left.
  - repeat constructor; done.
Defined.

Lemma collect_vms_accounts_for_names_witness :
  (vm_name <$> [ {| vm_name := "vm2"; vm_id := 12 |} ]) ++ ["vm1"; "vm3"]
  ≡ₚ ["vm1"; "vm2"; "vm3"]
  /\ [12] = [] ++ (vm_id <$> [ {| vm_name := "vm2"; vm_id := 12 |} ]).
Proof.
  apply (collect_vms_accounts_for_names [ {| vm_name := "vm2"; vm_id := 12 |} ]
           ["vm1"; "vm2"; "vm3"] ["vm1"; "vm3"] [] [12]).
  reflexivity.
Defined.

Lemma resolver_raises_on_unrequested_machine_witness :
  run (world_of master_opts site list_other_spelling)
    (_get_vmware_source_ids module_name "vc1" ["vm1"]) []
  = (Raised (ValueError "list.remove(x): x not in list"),
     connected ++
     [Logged INFO "Fetching Vcenter and Vm ids";
      Did (sdk 1%nat (list_protection_sources_root_nodes (Some K_VMWARE) None));
      Did (sdk 1%nat (list_virtual_machines 7 ["vm1"]))]).
Proof.
  apply (resolver_raises_on_unrequested_machine
           (world_of master_opts site list_other_spelling) module_name "vc1"
           ["vm1"] [] connected 1%nat (roots site)
           [ {| vm_name := "VM1"; vm_id := 11 |} ]); try reflexivity; try done.
  apply Exists_cons_hd. simpl.
  intros [Heq|Hin]%elem_of_cons; [done|by apply elem_of_nil in Hin].
Defined.
